(** * Alpha 4.3 (goldeneye.py): the request engine, embedded and verified

    The development follows [src/goldeneye.py].  Python values are modelled
    as follows:
    - [int] is [Z]; [float] is an exact rational [Q] (rounding is not
      modelled); [str] is [string], with [str.upper] acting on the ASCII
      letters;
    - a [dict] with string keys is a [gmap string _];
    - the module-level generator of [random] is a tape of raw draws with a
      cursor, so that every run of the program corresponds to some tape;
    - clock readings and the replies of the HTTP session are inputs of the
      functions that consume them;
    - exceptions are values of [PyExc]; a function that may raise returns a
      [Result]. *)

From Stdlib Require Import ZArith QArith Lia Bool List Ascii String.
From stdpp Require Import base strings pretty list gmap.

Local Open Scope Z_scope.

(** ** Python primitives *)

Module Py.

(** What [httpx] raises on a transport-level fault; each is a subclass of
    [httpx.HTTPError]. *)
Inductive TransportFault : Type :=
| Timeout             (* httpx.TimeoutException *)
| ConnectionRefused   (* httpx.ConnectError *)
| TLSFailure          (* httpx.ConnectError, raised from an SSL error *)
| ProtocolError.      (* httpx.ProtocolError *)

Inductive PyExc : Type :=
| ValueError
| IndexError
| ZeroDivisionError
| OverflowError
| AttributeError
| OSError
| HTTPError (f : TransportFault)
| CancelledError
| KeyboardInterrupt.

(** [isinstance(e, httpx.HTTPError)]. *)
Definition is_HTTPError (e : PyExc) : bool :=
  match e with HTTPError _ => true | _ => false end.

(** [isinstance(e, Exception)]: [asyncio.CancelledError] and
    [KeyboardInterrupt] derive from [BaseException] only. *)
Definition is_Exception (e : PyExc) : bool :=
  match e with CancelledError | KeyboardInterrupt => false | _ => true end.

Inductive Result (A : Type) : Type :=
| Ok (a : A)
| Raise (e : PyExc).

Arguments Ok {A} a.
Arguments Raise {A} e.

(** [str(n)] and the [{n}] field of an f-string, for an [int]. *)
Definition str (n : Z) : string := pretty n.

Definition upper_ascii (c : ascii) : ascii :=
  let n := N_of_ascii c in
  if ((97 <=? n) && (n <=? 122))%N then ascii_of_N (n - 32) else c.

(** [s.upper()]. *)
Fixpoint upper (s : string) : string :=
  match s with
  | EmptyString => EmptyString
  | String c s' => String (upper_ascii c) (upper s')
  end.

(** [int(x)] for a float [x]: truncation towards zero. *)
Definition int (x : Q) : Z := Z.quot (Qnum x) (Zpos (Qden x)).

(** [float(n)] raises [OverflowError] when [n] does not round to a finite
    double: the largest double is [2^1024 - 2^971], and ties round to even. *)
Definition float_range : Z := 2 ^ 1024 - 2 ^ 970.

Definition float (n : Z) : Result Q :=
  if Z.abs n <? float_range then Ok (inject_Z n) else Raise OverflowError.

(** [x / n] for a float [x] and an int [n] (true division). *)
Definition truediv (x : Q) (n : Z) : Result Q :=
  match float n with
  | Raise e => Raise e
  | Ok d => if n =? 0 then Raise ZeroDivisionError else Ok (x / d)%Q
  end.

(** [sum(l)] for a list of floats: left to right from [0]. *)
Definition sum (l : list Q) : Q := fold_left Qplus l 0%Q.

(** [a > b] on floats. *)
Definition gt (a b : Q) : bool := negb (Qle_bool a b).

(** [max(l)] for a non-empty list: the first of the largest items. *)
Definition max_from (m : Q) (l : list Q) : Q :=
  fold_left (fun acc x => if gt x acc then x else acc) l m.

Definition max (l : list Q) : Result Q :=
  match l with
  | [] => Raise ValueError
  | x :: l' => Ok (max_from x l')
  end.

(** *** The [random] module *)

Record Random : Type := { tape : nat -> N; cursor : nat }.

Definition Rand (A : Type) : Type := Random -> Result (A * Random).

Definition ret {A} (a : A) : Rand A := fun r => Ok (a, r).

Definition raise {A} (e : PyExc) : Rand A := fun _ => Raise e.

Definition bind {A B} (m : Rand A) (k : A -> Rand B) : Rand B :=
  fun r => match m r with
           | Ok (a, r') => k a r'
           | Raise e => Raise e
           end.

(** One raw draw, reduced to [0 <= k < n]; callers pass [n > 0]. *)
Definition randbelow (n : Z) : Rand Z :=
  fun r => Ok (Z.of_N (tape r (cursor r)) mod n,
               {| tape := tape r; cursor := S (cursor r) |}).

(** [random.randint(a, b)]: [ValueError] on an empty range. *)
Definition randint (a b : Z) : Rand Z :=
  if b <? a then raise ValueError
  else bind (randbelow (b - a + 1)) (fun k => ret (a + k)).

(** [random.choice(seq)]: [IndexError] on an empty sequence. *)
Definition choice {A} (seq : list A) : Rand A :=
  match seq with
  | [] => raise IndexError
  | x :: _ =>
      bind (randbelow (Z.of_nat (length seq)))
           (fun k => ret (nth (Z.to_nat k) seq x))
  end.

End Py.

Import Py.

Notation "x <- m ;; k" := (bind m (fun x => k))
  (at level 100, m at next level, k at level 200, right associativity).

(** ** Constants *)

Definition METHOD_GET : string := "get".
Definition METHOD_POST : string := "post".
Definition METHOD_RAND : string := "random".

Definition DEFAULT_WORKERS : Z := 50.
Definition DEFAULT_SOCKETS : Z := 350.
Definition DEFAULT_RATE_LIMIT : Z := 10000.

Definition USER_AGENTS : list string :=
  [ "Mozilla/5.0 (Windows NT 10.0; Win64; x64) AppleWebKit/537.36 (KHTML, like Gecko) Chrome/134.0.0.0 Safari/537.36";
    "Mozilla/5.0 (Macintosh; Intel Mac OS X 10_15_7) AppleWebKit/605.1.15 (KHTML, like Gecko) Version/17.10 Safari/605.1.15";
    "Mozilla/5.0 (X11; Linux x86_64) AppleWebKit/537.36 (KHTML, like Gecko) Chrome/134.0.0.0 Safari/537.36";
    "Mozilla/5.0 (iPhone; CPU iPhone OS 18_3_2 like Mac OS X) AppleWebKit/605.1.15 (KHTML, like Gecko) CriOS/134.0.6998.99 Mobile/15E148 Safari/604.1" ].

(** ** Data model *)

Inductive JSON : Type :=
| JStr (s : string)
| JInt (n : Z).

Abbreviation Headers := (gmap string string).
Abbreviation Body := (gmap string JSON).

(** The tuple returned by [generate_request]: path, headers, optional body. *)
Abbreviation Descriptor := (string * Headers * option Body)%type.

(** What [urllib.parse.urlparse] yields, as far as the engine reads it. *)
Record ParseResult : Type := { scheme : string; netloc : string; parsed_path : string }.

(** The [httpx.AsyncClient] built by [__aenter__]. *)
Record Session : Type := {
  client_base_url : string;
  max_keepalive_connections : Z;
  max_connections : Z;
  is_closed : bool
}.

(** The attributes of an [Alpha] object.  [counter] is the two-slot list
    [[successes, failures]]. *)
Record Alpha : Type := {
  url : string;
  workers : Z;
  sockets : Z;
  method : string;
  rate_limit : Z;
  dry_run : bool;
  duration : option Z;
  user_agents : list string;
  counter : Z * Z;
  latencies : list Q;
  start_time : Q;
  running : bool;
  parsed_url : ParseResult;
  base_url : string;
  path : string;
  session : option Session
}.

Definition set_counter (c : Z * Z) (self : Alpha) : Alpha :=
  {| url := url self; workers := workers self; sockets := sockets self;
     method := method self; rate_limit := rate_limit self;
     dry_run := dry_run self; duration := duration self;
     user_agents := user_agents self; counter := c;
     latencies := latencies self; start_time := start_time self;
     running := running self; parsed_url := parsed_url self;
     base_url := base_url self; path := path self; session := session self |}.

Definition set_latencies (l : list Q) (self : Alpha) : Alpha :=
  {| url := url self; workers := workers self; sockets := sockets self;
     method := method self; rate_limit := rate_limit self;
     dry_run := dry_run self; duration := duration self;
     user_agents := user_agents self; counter := counter self;
     latencies := l; start_time := start_time self;
     running := running self; parsed_url := parsed_url self;
     base_url := base_url self; path := path self; session := session self |}.

Definition set_start_time (t : Q) (self : Alpha) : Alpha :=
  {| url := url self; workers := workers self; sockets := sockets self;
     method := method self; rate_limit := rate_limit self;
     dry_run := dry_run self; duration := duration self;
     user_agents := user_agents self; counter := counter self;
     latencies := latencies self; start_time := t;
     running := running self; parsed_url := parsed_url self;
     base_url := base_url self; path := path self; session := session self |}.

Definition set_running (b : bool) (self : Alpha) : Alpha :=
  {| url := url self; workers := workers self; sockets := sockets self;
     method := method self; rate_limit := rate_limit self;
     dry_run := dry_run self; duration := duration self;
     user_agents := user_agents self; counter := counter self;
     latencies := latencies self; start_time := start_time self;
     running := b; parsed_url := parsed_url self;
     base_url := base_url self; path := path self; session := session self |}.

Definition set_session (s : option Session) (self : Alpha) : Alpha :=
  {| url := url self; workers := workers self; sockets := sockets self;
     method := method self; rate_limit := rate_limit self;
     dry_run := dry_run self; duration := duration self;
     user_agents := user_agents self; counter := counter self;
     latencies := latencies self; start_time := start_time self;
     running := running self; parsed_url := parsed_url self;
     base_url := base_url self; path := path self; session := s |}.

(** [self.counter[0] += 1] and [self.counter[1] += 1]. *)
Definition count_success (self : Alpha) : Alpha :=
  set_counter (fst (counter self) + 1, snd (counter self)) self.

Definition count_failure (self : Alpha) : Alpha :=
  set_counter (fst (counter self), snd (counter self) + 1) self.

(** ** [Alpha.__init__] (lines 57-78) *)

Definition init (urlparse : string -> ParseResult)
    (url : string) (workers sockets : Z) (method : string) (rate_limit : Z)
    (duration : option Z) (dry_run : bool) : Alpha :=
  let parsed := urlparse url in
  {| url := url;
     workers := workers;
     sockets := sockets;
     method := method;
     rate_limit := Z.max 1 rate_limit;
     dry_run := dry_run;
     duration := duration;
     user_agents := USER_AGENTS;
     counter := (0, 0);
     latencies := [];
     start_time := 0%Q;
     running := true;
     parsed_url := parsed;
     base_url := scheme parsed +:+ "://" +:+ netloc parsed;
     path := if String.eqb (parsed_path parsed) "" then "/" else parsed_path parsed;
     session := None |}.

(** ** [Alpha.__aenter__] (lines 80-94) *)

Definition aenter (now : Q) (self : Alpha) : Alpha :=
  let self := set_start_time now self in
  if negb (dry_run self) then
    set_session
      (Some {| client_base_url := base_url self;
               max_keepalive_connections := sockets self * 2;
               max_connections := workers self * sockets self * 2;
               is_closed := false |})
      self
  else self.

(** ** Statistics: [get_stats_table] (lines 102-128), [print_stats] (139-152) *)

Record Stats : Type := {
  st_success : Z;
  st_failed : Z;
  st_elapsed : Q;
  st_total_requests : Z;
  st_rate : Q;
  st_avg_latency : Q;
  st_max_latency : Q
}.

(** The values computed on lines 104-113; the rows of the table format them. *)
Definition get_stats_table (self : Alpha) (now : Q) : Stats :=
  let '(success, failed) := counter self in
  let elapsed := (now - start_time self)%Q in
  let total_requests := success + failed in
  let rate := if Py.gt elapsed 0 then (inject_Z total_requests / elapsed)%Q else 0%Q in
  let '(avg_latency, max_latency) :=
    match latencies self with
    | [] => (0%Q, 0%Q)
    | x :: l' =>
        ((Py.sum (latencies self) / inject_Z (Z.of_nat (length (latencies self))))%Q,
         Py.max_from x l')
    end in
  {| st_success := success; st_failed := failed; st_elapsed := elapsed;
     st_total_requests := total_requests; st_rate := rate;
     st_avg_latency := avg_latency; st_max_latency := max_latency |}.

(** What [print_stats] shows: the table when Rich is available, else the
    plain lines computed on lines 144-148, which carry no maximum. *)
Inductive Printed : Type :=
| RichTable (t : Stats)
| PlainText (method_upper : string) (total_requests : Z) (rps : Q)
            (success failed : Z) (avg_lat : Q).

Definition print_stats (RICH_AVAILABLE : bool) (self : Alpha) (now : Q) : Printed :=
  if RICH_AVAILABLE then RichTable (get_stats_table self now)
  else
    let '(success, failed) := counter self in
    let total_requests := success + failed in
    let elapsed_time := (now - start_time self)%Q in
    let rps := if Py.gt elapsed_time 0 then (inject_Z total_requests / elapsed_time)%Q else 0%Q in
    let avg_lat :=
      match latencies self with
      | [] => 0%Q
      | _ => (Py.sum (latencies self) / inject_Z (Z.of_nat (length (latencies self))))%Q
      end in
    PlainText (upper (method self)) total_requests rps success failed avg_lat.

(** ** [Alpha.generate_request] (lines 154-176) *)

(** Line 169, repeated on line 184. *)
Definition resolve_method (self : Alpha) : Rand string :=
  if String.eqb (method self) METHOD_RAND
  then choice [METHOD_GET; METHOD_POST]
  else ret (method self).

(** [generate_request] together with its local variable [method], which the
    source does not return. [now] is the reading of [time.time()]. *)
Definition generate_request_resolved (self : Alpha) (now : Q)
  : Rand (string * Descriptor) :=
  q <- randint 100000 999999 ;;
  let cache_buster := "?q=" +:+ str q in
  let url_path := path self +:+ cache_buster in
  ua <- choice (user_agents self) ;;
  ref <- randint 1000 9999 ;;
  let headers : Headers :=
    <["Accept-Encoding" := "gzip, deflate, br"]>
    (<["Referer" := base_url self +:+ "/search?q=" +:+ str ref]>
    (<["Connection" := "keep-alive"]>
    (<["User-Agent" := ua]> ∅))) in
  method <- resolve_method self ;;
  if String.eqb (upper method) "POST" then
    let headers := <["Content-Type" := "application/json"]> headers in
    k <- randint 1 1000 ;;
    let timestamp := int now in
    w <- randint 1 (workers self) ;;
    let body : Body :=
      <["worker_id" := JInt w]>
      (<["timestamp" := JInt timestamp]>
      (<["key" := JStr ("data_" +:+ str k)]> ∅)) in
    ret (method, (url_path, headers, Some body))
  else
    ret (method, (url_path, headers, None)).

Definition generate_request (self : Alpha) (now : Q) : Rand Descriptor :=
  md <- generate_request_resolved self now ;;
  ret (snd md).

(** ** [Alpha.strike] (lines 178-216) *)

Inductive Verb : Type := GET | POST.

(** A call handed to the session: [session.get(url_path, headers=headers)]
    or [session.post(url_path, headers=headers, json=body)]. *)
Record Request : Type := {
  verb : Verb;
  req_path : string;
  req_headers : Headers;
  req_json : option Body
}.

(** What the awaited call yields when the coroutine is resumed. *)
Inductive Reply : Type :=
| Response (status_code : Z)
| Throws (e : PyExc).

(** How a call of [strike] ends: it returns, or an exception leaves it. *)
Inductive StrikeResult : Type :=
| Returned (success : bool)
| Propagated (e : PyExc).

(** The locals of a [strike] coroutine suspended at its [await]. *)
Record Frame : Type := {
  fr_method : string;
  fr_start_time : Q;
  fr_request : Request
}.

(** The engine with what it shares with its environment: the generator of
    [random], the requests handed to the session (oldest first), the
    [strike] coroutines created but not started, those suspended at their
    [await], and the values of the calls that returned (latest first). *)
Record Sys : Type := {
  engine : Alpha;
  random : Random;
  wire : list Request;
  created : list Descriptor;
  inflight : list Frame;
  returned : list bool
}.

Definition set_engine (a : Alpha) (s : Sys) : Sys :=
  {| engine := a; random := random s; wire := wire s;
     created := created s; inflight := inflight s; returned := returned s |}.

Definition set_random (r : Random) (s : Sys) : Sys :=
  {| engine := engine s; random := r; wire := wire s;
     created := created s; inflight := inflight s; returned := returned s |}.

Definition send (q : Request) (s : Sys) : Sys :=
  {| engine := engine s; random := random s; wire := wire s ++ [q];
     created := created s; inflight := inflight s; returned := returned s |}.

Definition set_created (l : list Descriptor) (s : Sys) : Sys :=
  {| engine := engine s; random := random s; wire := wire s;
     created := l; inflight := inflight s; returned := returned s |}.

Definition set_inflight (l : list Frame) (s : Sys) : Sys :=
  {| engine := engine s; random := random s; wire := wire s;
     created := created s; inflight := l; returned := returned s |}.

Definition set_returned (l : list bool) (s : Sys) : Sys :=
  {| engine := engine s; random := random s; wire := wire s;
     created := created s; inflight := inflight s; returned := l |}.

(** The [except] clauses of lines 209-214, followed by [return success]
    with [success] still [False]; anything else leaves [strike]. *)
Definition strike_except (e : PyExc) (s : Sys) : StrikeResult * Sys :=
  if is_HTTPError e then (Returned false, set_engine (count_failure (engine s)) s)
  else if is_Exception e then (Returned false, set_engine (count_failure (engine s)) s)
  else (Propagated e, s).

Inductive Begun : Type :=
| Done (res : StrikeResult)
| Await (f : Frame).

(** [self.session.get(...)] / [self.session.post(...)] inside the [try]:
    without a session the attribute access raises [AttributeError]. *)
Definition dispatch (method : string) (t0 : Q) (q : Request) (s : Sys) : Begun * Sys :=
  match session (engine s) with
  | None => let '(res, s') := strike_except AttributeError s in (Done res, s')
  | Some _ =>
      (Await {| fr_method := method; fr_start_time := t0; fr_request := q |},
       send q s)
  end.

(** [strike] up to its [await] (lines 180-194, and 196-197).  [t0] is the
    reading of [time.perf_counter()] on line 186. *)
Definition strike_begin (d : Descriptor) (t0 : Q) (s : Sys) : Begun * Sys :=
  let '(url_path, headers, body) := d in
  if dry_run (engine s) then
    (Done (Returned true), set_engine (count_success (engine s)) s)
  else
    match resolve_method (engine s) (random s) with
    | Raise e => (Done (Propagated e), s)
    | Ok (method, r) =>
        let s := set_random r s in
        if String.eqb (upper method) "GET" then
          dispatch method t0
            {| verb := GET; req_path := url_path; req_headers := headers;
               req_json := None |} s
        else if String.eqb (upper method) "POST" then
          dispatch method t0
            {| verb := POST; req_path := url_path; req_headers := headers;
               req_json := body |} s
        else
          (Done (Returned false), set_engine (count_failure (engine s)) s)
    end.

(** [strike] from its [await] on (lines 199-216).  [t1] is the reading of
    [time.perf_counter()] on line 199. *)
Definition strike_resume (f : Frame) (reply : Reply) (t1 : Q) (s : Sys)
  : StrikeResult * Sys :=
  match reply with
  | Response status_code =>
      let latency := ((t1 - fr_start_time f) * 1000)%Q in
      let s := set_engine (set_latencies (latencies (engine s) ++ [latency]) (engine s)) s in
      if (200 <=? status_code) && (status_code <? 400) then
        (Returned true, set_engine (count_success (engine s)) s)
      else
        (Returned false, set_engine (count_failure (engine s)) s)
  | Throws e => strike_except e s
  end.

(** One call of [strike] run to its end; [net] is the session's answer to
    the request, with the clock reading at that moment. *)
Definition strike (d : Descriptor) (t0 : Q) (net : Request -> Reply * Q) (s : Sys)
  : StrikeResult * Sys :=
  match strike_begin d t0 s with
  | (Done res, s') => (res, s')
  | (Await f, s') =>
      let '(reply, t1) := net (fr_request f) in strike_resume f reply t1 s'
  end.

(** ** [Alpha.worker] (lines 218-235) *)

(** Line 222: [delay_per_request = 1.0 / self.rate_limit]. *)
Definition delay_per_request (self : Alpha) : Result Q :=
  truediv 1 (rate_limit self).

(** The worker tasks run interleaved on one event loop, each piece between
    two [await]s being atomic.  The pieces that touch the shared state are
    the events below; a schedule is the order in which the loop runs them.
    The batching and pacing of [worker] only restrict which schedules
    occur, so what holds for every schedule holds for every run. *)
Inductive Event : Type :=
| EvGenerate (now : Q)                        (* lines 228-229 *)
| EvStart (i : nat) (t0 : Q)                  (* [gather] starts a created coroutine *)
| EvReply (i : nat) (reply : Reply) (t1 : Q)  (* a suspended [strike] is resumed *)
| EvStats (now : Q).                          (* an observer reads the statistics *)

Definition record (res : StrikeResult) (s : Sys) : Sys :=
  match res with
  | Returned b => set_returned (b :: returned s) s
  | Propagated _ => s
  end.

(** [None]: the event is not enabled in [s]. *)
Definition step (ev : Event) (s : Sys) : option Sys :=
  match ev with
  | EvGenerate now =>
      match generate_request (engine s) now (random s) with
      | Ok (d, r) => Some (set_created (created s ++ [d]) (set_random r s))
      | Raise _ => None
      end
  | EvStart i t0 =>
      match created s !! i with
      | Some d =>
          let s := set_created (delete i (created s)) s in
          match strike_begin d t0 s with
          | (Done res, s') => Some (record res s')
          | (Await f, s') => Some (set_inflight (inflight s' ++ [f]) s')
          end
      | None => None
      end
  | EvReply i reply t1 =>
      match inflight s !! i with
      | Some f =>
          let s := set_inflight (delete i (inflight s)) s in
          let '(res, s') := strike_resume f reply t1 s in
          Some (record res s')
      | None => None
      end
  | EvStats now => Some s
  end.

(** Runs a schedule; an event that is not enabled is skipped. *)
Fixpoint exec (sched : list Event) (s : Sys) : Sys :=
  match sched with
  | [] => s
  | ev :: sched' =>
      match step ev s with
      | Some s' => exec sched' s'
      | None => exec sched' s
      end
  end.

(** ** [Alpha.run] (lines 238-260), [__aexit__] (96-100), [run_wrapper] (264-287) *)

(** In a dry run, [run] returns after its pause and spawns no worker;
    otherwise the workers run until the wait ends, then [running] is cleared. *)
Definition run (sched : list Event) (s : Sys) : Sys :=
  if dry_run (engine s) then s
  else
    let s := exec sched s in
    set_engine (set_running false (engine s)) s.

Definition aclose (o : option Session) : option Session :=
  match o with
  | Some c =>
      Some {| client_base_url := client_base_url c;
              max_keepalive_connections := max_keepalive_connections c;
              max_connections := max_connections c;
              is_closed := true |}
  | None => None
  end.

Definition aexit (RICH_AVAILABLE : bool) (now : Q) (s : Sys) : Printed * Sys :=
  let self := set_running false (engine s) in
  let self := set_session (aclose (session self)) self in
  (print_stats RICH_AVAILABLE self now, set_engine self s).

Definition boot (self : Alpha) (r : Random) : Sys :=
  {| engine := self; random := r; wire := []; created := []; inflight := [];
     returned := [] |}.

(** The parsed command line. *)
Record Args : Type := {
  arg_url : string;
  arg_workers : Z;
  arg_sockets : Z;
  arg_method : string;
  arg_duration : option Z;
  arg_rate_limit : Z;
  arg_dry_run : bool
}.

(** [async with Alpha(...) as engine: await engine.run()].  [t_enter] and
    [t_exit] are the readings of [time.time()] in [__aenter__] and in
    [print_stats]. *)
Definition run_wrapper (urlparse : string -> ParseResult) (RICH_AVAILABLE : bool)
    (args : Args) (r : Random) (t_enter : Q) (sched : list Event) (t_exit : Q)
  : Printed * Sys :=
  let engine :=
    init urlparse (arg_url args) (arg_workers args) (arg_sockets args)
         (arg_method args) (arg_rate_limit args) (arg_duration args)
         (arg_dry_run args) in
  let s := boot (aenter t_enter engine) r in
  aexit RICH_AVAILABLE t_exit (run sched s).

(** ** One batch of [worker] (lines 225-235) *)

(** One pass through the body of the [while] loop, for a worker that runs
    alone: [range(self.sockets)] iterations, each generating a descriptor
    and creating its [strike] coroutine; then [gather] starts the coroutines
    in the order they were created, and each suspended one is resumed when
    its reply arrives.  [completions] lists the replies in their order of
    arrival, each with the position of its coroutine among those still
    suspended. *)
Definition worker_batch (self : Alpha) (gen_times start_times : nat -> Q)
    (completions : list (nat * Reply * Q)) : list Event :=
  let n := Z.to_nat (sockets self) in
  map (fun k => EvGenerate (gen_times k)) (seq 0 n)
  ++ map (fun k => EvStart 0 (start_times k)) (seq 0 n)
  ++ map (fun c => EvReply (fst (fst c)) (snd (fst c)) (snd c)) completions.

(** ** Vocabulary of the statements *)

(** The counter after one more attempt with outcome [b]. *)
Definition bump (b : bool) (c : Z * Z) : Z * Z :=
  if b then (fst c + 1, snd c) else (fst c, snd c + 1).

(** How many of the returned calls had outcome [b]. *)
Definition tally (b : bool) (l : list bool) : Z :=
  Z.of_nat (count_occ bool_dec l b).

(** The counters agree with the calls of [strike] that have returned. *)
Definition counted (s : Sys) : Prop :=
  fst (counter (engine s)) = tally true (returned s)
  /\ snd (counter (engine s)) = tally false (returned s).

(** The method mode is one the session can be asked for. *)
Definition supported (self : Alpha) : Prop :=
  method self = METHOD_RAND
  \/ upper (method self) = "GET" \/ upper (method self) = "POST".

(** The reply lets [strike] return: a response, or an [Exception]. *)
Definition caught (reply : Reply) : bool :=
  match reply with
  | Response _ => true
  | Throws e => is_Exception e
  end.

(** The reply is a response that counts as a success. *)
Definition good (reply : Reply) : bool :=
  match reply with
  | Response status_code => (200 <=? status_code) && (status_code <? 400)
  | Throws _ => false
  end.

Definition is_response (reply : Reply) : bool :=
  match reply with
  | Response _ => true
  | Throws _ => false
  end.

(** [cs] resumes each of [n] suspended coroutines once, with a reply that is
    [caught]. *)
Fixpoint completes (n : nat) (cs : list (nat * Reply * Q)) : bool :=
  match cs, n with
  | [], O => true
  | (i, reply, _) :: cs', S n' =>
      (i <? S n')%nat && caught reply && completes n' cs'
  | _, _ => false
  end.

(** How many of the replies in [cs] satisfy [p]. *)
Definition replies (p : Reply -> bool) (cs : list (nat * Reply * Q)) : Z :=
  tally true (map (fun c => p (snd (fst c))) cs).

(** What one event can do to the shared state. *)
Inductive effect (s s' : Sys) : Prop :=
| eff_idle :
    (* nothing shared changes, or a suspended call is left by an exception *)
    engine s' = engine s -> wire s' = wire s -> returned s' = returned s ->
    (length (inflight s') <= length (inflight s))%nat ->
    effect s s'
| eff_send (q : Request) (f : Frame) :
    (* a call reaches its [await] *)
    engine s' = engine s -> dry_run (engine s) = false ->
    session (engine s) <> None ->
    wire s' = wire s ++ [q] -> inflight s' = inflight s ++ [f] ->
    returned s' = returned s ->
    effect s s'
| eff_dry :
    (* a call returns at once in a dry run *)
    dry_run (engine s) = true -> engine s' = count_success (engine s) ->
    wire s' = wire s -> inflight s' = inflight s ->
    returned s' = true :: returned s ->
    effect s s'
| eff_refused :
    (* a live call fails before any [await] *)
    dry_run (engine s) = false -> engine s' = count_failure (engine s) ->
    wire s' = wire s -> inflight s' = inflight s ->
    returned s' = false :: returned s ->
    effect s s'
| eff_fault :
    (* a suspended call is resumed by an exception it catches *)
    engine s' = count_failure (engine s) -> wire s' = wire s ->
    S (length (inflight s')) = length (inflight s) ->
    returned s' = false :: returned s ->
    effect s s'
| eff_response (x : Q) (b : bool) :
    (* a suspended call is resumed by a response *)
    engine s'
    = (if b then count_success else count_failure)
        (set_latencies (latencies (engine s) ++ [x]) (engine s)) ->
    wire s' = wire s ->
    S (length (inflight s')) = length (inflight s) ->
    returned s' = b :: returned s ->
    effect s s'.

(** The event starts a call of [strike]. *)
Definition is_start (ev : Event) : bool :=
  match ev with
  | EvStart _ _ => true
  | _ => false
  end.

(** The event resumes a call with an exception [strike] does not catch. *)
Definition is_cancel (ev : Event) : bool :=
  match ev with
  | EvReply _ (Throws e) _ => negb (is_Exception e)
  | _ => false
  end.

(** How many events of [sched] that satisfy [p] take place when [sched]
    runs from [s]. *)
Fixpoint occurrences (p : Event -> bool) (sched : list Event) (s : Sys) : nat :=
  match sched with
  | [] => 0
  | ev :: sched' =>
      match step ev s with
      | Some s' => ((if p ev then 1 else 0) + occurrences p sched' s')%nat
      | None => occurrences p sched' s
      end
  end.

(** The calls of [strike] started, and those left by an exception that is
    not caught, while [sched] runs from [s]. *)
Definition started (sched : list Event) (s : Sys) : nat :=
  occurrences is_start sched s.

Definition cancelled (sched : list Event) (s : Sys) : nat :=
  occurrences is_cancel sched s.

(** ** Concrete inputs, used to run the definitions *)

Module Sample.

Definition urlparse (_ : string) : ParseResult :=
  {| scheme := "https"; netloc := "example.com"; parsed_path := "/api/submit" |}.

Definition target : string := "https://example.com/api/submit".

(** Every raw draw is [7]. *)
Definition sevens : Random := {| tape := fun _ => 7%N; cursor := 0 |}.

(** A live engine posting to the target, three workers, entered at time 5. *)
Definition poster : Alpha :=
  aenter 5 (init urlparse target 3 2 METHOD_POST 0 None false).

Definition poster_path : string := "/api/submit?q=100007".

Definition poster_headers : Headers :=
  <["Content-Type" := "application/json"]>
  (<["Accept-Encoding" := "gzip, deflate, br"]>
  (<["Referer" := "https://example.com/search?q=1007"]>
  (<["Connection" := "keep-alive"]>
  (<["User-Agent" := "Mozilla/5.0 (iPhone; CPU iPhone OS 18_3_2 like Mac OS X) AppleWebKit/605.1.15 (KHTML, like Gecko) CriOS/134.0.6998.99 Mobile/15E148 Safari/604.1"]> ∅)))).

Definition poster_body : Body :=
  <["worker_id" := JInt 2]>
  (<["timestamp" := JInt 8]>
  (<["key" := JStr "data_8"]> ∅)).

Definition poster_descriptor : Descriptor :=
  (poster_path, poster_headers, Some poster_body).

(** The session answers every request with [reply] at time [t1]. *)
Definition answering (reply : Reply) (t1 : Q) : Request -> Reply * Q :=
  fun _ => (reply, t1).

Definition poster_sys : Sys := boot poster sevens.

Definition poster_request : Request :=
  {| verb := POST; req_path := poster_path; req_headers := poster_headers;
     req_json := Some poster_body |}.

Definition poster_frame : Frame :=
  {| fr_method := METHOD_POST; fr_start_time := 6; fr_request := poster_request |}.

(** A live engine configured with a method the session is never asked for. *)
Definition putter : Alpha :=
  aenter 5 (init urlparse target 3 2 "put" 10 None false).

(** A live engine in RANDOM mode, one worker. *)
Definition mixer : Alpha :=
  aenter 5 (init urlparse target 1 1 METHOD_RAND 1 None false).

(** Raw draws: all [0], but the [k]-th, which is [1]. *)
Definition one_at (k : nat) (pos : nat) : Random :=
  {| tape := fun n => if Nat.eqb n k then 1%N else 0%N; cursor := pos |}.

Definition mixer_headers : Headers :=
  <["Accept-Encoding" := "gzip, deflate, br"]>
  (<["Referer" := "https://example.com/search?q=1000"]>
  (<["Connection" := "keep-alive"]>
  (<["User-Agent" := "Mozilla/5.0 (Windows NT 10.0; Win64; x64) AppleWebKit/537.36 (KHTML, like Gecko) Chrome/134.0.0.0 Safari/537.36"]> ∅))).

Definition mixer_body : Body :=
  <["worker_id" := JInt 1]>
  (<["timestamp" := JInt 8]>
  (<["key" := JStr "data_1"]> ∅)).

(** The descriptor [mixer] builds when the draw in [generate_request] is POST. *)
Definition built_as_post : Descriptor :=
  ("/api/submit?q=100000",
   <["Content-Type" := "application/json"]> mixer_headers,
   Some mixer_body).

(** The descriptor [mixer] builds when the draw in [generate_request] is GET. *)
Definition built_as_get : Descriptor :=
  ("/api/submit?q=100000", mixer_headers, None).

(** The command line [--workers 1 --sockets 1 --rate-limit 1 --dry-run]. *)
Definition dry_args (url method : string) (duration : option Z) : Args :=
  {| arg_url := url; arg_workers := 1; arg_sockets := 1; arg_method := method;
     arg_duration := duration; arg_rate_limit := 1; arg_dry_run := true |}.

(** A live engine posting to the target, with no worker. *)
Definition workerless : Alpha :=
  aenter 5 (init urlparse target 0 2 METHOD_POST 10 None false).

(** A dry-run engine, entered at time 5. *)
Definition rehearsal : Alpha :=
  aenter 5 (init urlparse target 3 2 METHOD_POST 10 None true).

(** A live engine on which [__aenter__] was never run. *)
Definition unentered : Alpha :=
  init urlparse target 3 2 METHOD_POST 10 None false.

(** Two descriptors are generated and struck; the first reply is a 204. *)
Definition short_schedule : list Event :=
  [EvGenerate 6; EvGenerate 6; EvStart 0 7; EvStart 0 7;
   EvReply 0 (Response 204) 8; EvStats 9].

(** The second of two suspended calls gets a 200, then the first times out. *)
Definition batch_replies : list (nat * Reply * Q) :=
  [(1%nat, Response 200, 8%Q); (0%nat, Throws (HTTPError Timeout), 9%Q)].

End Sample.

(** * Properties *)

Import Sample.

(** ** The generator *)

Lemma randint_range a b r k r' :
  randint a b r = Ok (k, r') -> a <= k <= b.
Proof.
  unfold randint. destruct (b <? a) eqn:E; [discriminate|].
  apply Z.ltb_ge in E. unfold bind, randbelow, ret. intros [= <- _].
  pose proof (Z.mod_pos_bound (Z.of_N (tape r (cursor r))) (b - a + 1)). lia.
Qed.

Lemma randint_returns a b r :
  a <= b ->
  exists k, randint a b r = Ok (k, {| tape := tape r; cursor := S (cursor r) |}).
Proof.
  intros H. unfold randint. destruct (b <? a) eqn:E.
  - apply Z.ltb_lt in E. lia.
  - eexists. reflexivity.
Qed.

Lemma resolve_method_returns self r :
  exists m r', resolve_method self r = Ok (m, r').
Proof.
  unfold resolve_method. destruct (String.eqb _ _); eexists; eexists; reflexivity.
Qed.

(** Outside RANDOM mode the configured method is used and nothing is drawn. *)
Lemma resolve_method_fixed self r :
  method self <> METHOD_RAND -> resolve_method self r = Ok (method self, r).
Proof.
  intros H. unfold resolve_method.
  apply String.eqb_neq in H. rewrite H. reflexivity.
Qed.

(** Peels the first [bind] of a monadic equation. *)
Ltac bind_step H x r :=
  unfold bind in H at 1;
  match type of H with
  | match ?m ?r0 with _ => _ end = _ =>
      let E := fresh "E" x in
      destruct (m r0) as [[x r]|?] eqn:E; [|discriminate H]
  end.

(** With at least one worker and a user agent to choose from,
    [generate_request] returns a descriptor. *)
Lemma generate_request_returns self now r :
  1 <= workers self -> user_agents self <> [] ->
  exists d r', generate_request self now r = Ok (d, r').
Proof.
  intros Hw Hua. unfold generate_request, generate_request_resolved.
  destruct (user_agents self) as [|ua uas] eqn:Eua; [contradiction|].
  destruct (resolve_method_returns self
              {| tape := tape r; cursor := S (S (S (cursor r))) |})
    as (m & r4 & Hm).
  unfold bind at 1. unfold bind at 1. cbn [randint Z.ltb Z.compare Pos.compare
    Pos.compare_cont]. unfold bind at 1, randbelow at 1, ret at 1.
  unfold bind at 1. unfold choice, bind at 1, randbelow at 1, ret at 1.
  cbn [tape cursor]. unfold bind at 1.
  change (randint 1000 9999) with
    (bind (randbelow (9999 - 1000 + 1)) (fun k => ret (1000 + k))).
  unfold bind at 1, randbelow at 1, ret at 1. cbn [tape cursor].
  unfold bind at 1. rewrite Hm.
  destruct (String.eqb (upper m) "POST").
  - unfold bind at 1.
    change (randint 1 1000) with
      (bind (randbelow (1000 - 1 + 1)) (fun k => ret (1 + k))).
    unfold bind at 1, randbelow at 1, ret at 1.
    unfold bind at 1.
    destruct (randint_returns 1 (workers self)
                {| tape := tape r4; cursor := S (cursor r4) |} Hw) as (w & Hr).
    cbn [tape cursor] in *. rewrite Hr. eexists. eexists. reflexivity.
  - eexists. eexists. reflexivity.
Qed.

(** C8.  A descriptor whose method was resolved to POST carries the header
    [Content-Type: application/json] and the body
    [{key: "data_<n>", timestamp: int(time.time()), worker_id: w}] with
    [1 <= n <= 1000] and [1 <= w <= workers]; a descriptor resolved to GET
    (or to anything but POST) carries no body.  The descriptor is the one
    [generate_request] returns. *)
Theorem C8_post_descriptor_shape self now r m url_path headers body r' :
  generate_request_resolved self now r = Ok (m, (url_path, headers, body), r') ->
  generate_request self now r = Ok ((url_path, headers, body), r')
  /\ (upper m = "POST" ->
        headers !! "Content-Type" = Some "application/json"
        /\ exists n w, 1 <= n <= 1000 /\ 1 <= w <= workers self
           /\ body = Some (<["worker_id" := JInt w]>
                          (<["timestamp" := JInt (int now)]>
                          (<["key" := JStr ("data_" +:+ str n)]> ∅))))
  /\ (upper m = "GET" -> body = None)
  /\ (upper m <> "POST" -> body = None /\ headers !! "Content-Type" = None).
Proof.
  intros H. split.
  { unfold generate_request, bind. rewrite H. reflexivity. }
  assert (Hnp : upper m <> "POST" ->
                body = None /\ headers !! "Content-Type" = None).
  { revert H. unfold generate_request_resolved. intros H.
    bind_step H q r1. bind_step H ua r2. bind_step H ref r3. bind_step H m' r4.
    destruct (String.eqb (upper m') "POST") eqn:Em.
    - bind_step H k r5. bind_step H w r6. unfold ret in H.
      injection H as <- <- <- <- <-.
      intros Hne. apply String.eqb_eq in Em. contradiction.
    - unfold ret in H. injection H as <- <- <- <- <-.
      intros _. split; [reflexivity|].
      by rewrite !lookup_insert_ne, lookup_empty. }
  split; [|split; [|exact Hnp]].
  - revert H. unfold generate_request_resolved. intros H.
    bind_step H q r1. bind_step H ua r2. bind_step H ref r3. bind_step H m' r4.
    destruct (String.eqb (upper m') "POST") eqn:Em.
    + bind_step H k r5. bind_step H w r6. unfold ret in H.
      injection H as <- <- <- <- <-.
      intros _. split; [apply lookup_insert_eq|].
      exists k, w. split; [eapply randint_range; eauto|].
      split; [eapply randint_range; eauto|reflexivity].
    + unfold ret in H. injection H as <- <- <- <- <-.
      intros Hm. apply String.eqb_neq in Em. contradiction.
  - intros Hg. apply Hnp. rewrite Hg. discriminate.
Qed.

Lemma C8_post_descriptor_shape_witness :
  generate_request_resolved poster (17 # 2) sevens
    = Ok (METHOD_POST, poster_descriptor, {| tape := tape sevens; cursor := 5 |})
  /\ generate_request poster (17 # 2) sevens
     = Ok (poster_descriptor, {| tape := tape sevens; cursor := 5 |})
  /\ (poster_headers !! "Content-Type" = Some "application/json"
      /\ exists n w, 1 <= n <= 1000 /\ 1 <= w <= workers poster
         /\ Some poster_body
            = Some (<["worker_id" := JInt w]>
                   (<["timestamp" := JInt (int (17 # 2))]>
                   (<["key" := JStr ("data_" +:+ str n)]> ∅)))).
Proof.
  assert (H : generate_request_resolved poster (17 # 2) sevens
              = Ok (METHOD_POST, poster_descriptor,
                    {| tape := tape sevens; cursor := 5 |}))
    by (vm_compute; reflexivity).
  split; [exact H|].
  destruct (C8_post_descriptor_shape _ _ _ _ _ _ _ _ H) as (Hg & Hp & _).
  split; [exact Hg|]. apply Hp. reflexivity.
Defined.

(** ** The pacing delay *)

(** C10.  Whatever [rate_limit] the constructor receives, the engine keeps
    [max(1, rate_limit)], which is at least 1; so [1.0 / self.rate_limit]
    never divides by zero, every delay it yields lies in (0, 1] seconds, and
    it yields one for every rate limit a float can hold. *)
Theorem C10_rate_limit_floor urlparse url w so m rl du dr :
  let self := init urlparse url w so m rl du dr in
  rate_limit self = Z.max 1 rl
  /\ 1 <= rate_limit self
  /\ delay_per_request self <> Raise ZeroDivisionError
  /\ (forall q, delay_per_request self = Ok q -> (0 < q)%Q /\ (q <= 1)%Q)
  /\ (rl < float_range ->
      delay_per_request self = Ok (1 / inject_Z (Z.max 1 rl))%Q).
Proof.
  cbn zeta. unfold delay_per_request, truediv, float. cbn [rate_limit init].
  assert (Hn : 1 <= Z.max 1 rl) by lia.
  assert (Hz : (Z.max 1 rl =? 0) = false) by (apply Z.eqb_neq; lia).
  rewrite Hz.
  split; [reflexivity|]. split; [exact Hn|].
  destruct (Z.abs (Z.max 1 rl) <? float_range) eqn:Ef.
  - split; [discriminate|]. split; [|reflexivity].
    intros q [= <-].
    destruct (Z.max 1 rl) as [|p|p]; try lia.
    unfold Qlt, Qle. cbn. lia.
  - split; [discriminate|]. split; [discriminate|].
    intros Hr. apply Z.ltb_ge in Ef.
    assert (1 < float_range) by (vm_compute; reflexivity). lia.
Qed.

(** ** One call of [strike] *)

Lemma strike_except_spec e s :
  strike_except e s
  = if is_Exception e
    then (Returned false, set_engine (count_failure (engine s)) s)
    else (Propagated e, s).
Proof. destruct e; reflexivity. Qed.

(** A call that reaches its [await] has handed exactly one request to the
    session and changed nothing else but the generator. *)
Lemma strike_begin_await d t0 s f s1 :
  strike_begin d t0 s = (Await f, s1) ->
  dry_run (engine s) = false
  /\ engine s1 = engine s
  /\ wire s1 = wire s ++ [fr_request f]
  /\ fr_start_time f = t0
  /\ created s1 = created s /\ inflight s1 = inflight s
  /\ returned s1 = returned s.
Proof.
  destruct d as [[url_path headers] body]. unfold strike_begin.
  destruct (dry_run (engine s)) eqn:Edry; [discriminate|].
  destruct (resolve_method (engine s) (random s)) as [[m r]|e]; [|discriminate].
  unfold dispatch. cbn [engine set_random].
  destruct (session (engine s)) eqn:Es.
  - destruct (String.eqb (upper m) "GET");
      [|destruct (String.eqb (upper m) "POST"); [|discriminate]];
      intros [= <- <-]; cbn; auto 10.
  - rewrite strike_except_spec. cbn [is_Exception].
    destruct (String.eqb (upper m) "GET");
      [|destruct (String.eqb (upper m) "POST")]; discriminate.
Qed.

(** A call that ends before any [await] sends nothing and records no
    latency; it counts one attempt unless an exception leaves it. *)
Lemma strike_begin_done d t0 s res s1 :
  strike_begin d t0 s = (Done res, s1) ->
  wire s1 = wire s
  /\ latencies (engine s1) = latencies (engine s)
  /\ created s1 = created s /\ inflight s1 = inflight s
  /\ returned s1 = returned s
  /\ match res with
     | Returned b => counter (engine s1) = bump b (counter (engine s))
     | Propagated _ => counter (engine s1) = counter (engine s)
     end.
Proof.
  destruct d as [[url_path headers] body]. unfold strike_begin.
  destruct (dry_run (engine s)) eqn:Edry.
  { intros [= <- <-]. cbn. auto 10. }
  destruct (resolve_method (engine s) (random s)) as [[m r]|e].
  2:{ intros [= <- <-]. auto 10. }
  unfold dispatch. cbn [engine set_random].
  destruct (session (engine s)) eqn:Es.
  - destruct (String.eqb (upper m) "GET");
      [|destruct (String.eqb (upper m) "POST")]; try discriminate.
    intros [= <- <-]. cbn. auto 10.
  - rewrite strike_except_spec. cbn [is_Exception].
    destruct (String.eqb (upper m) "GET");
      [|destruct (String.eqb (upper m) "POST")];
      intros [= <- <-]; cbn; auto 10.
Qed.

(** A live call with a session and a method that resolves to GET or POST
    reaches its [await]; the verb it uses is the one drawn inside [strike]. *)
Lemma strike_begin_dispatches d t0 s m r c :
  dry_run (engine s) = false ->
  session (engine s) = Some c ->
  resolve_method (engine s) (random s) = Ok (m, r) ->
  upper m = "GET" \/ upper m = "POST" ->
  exists f s1,
    strike_begin d t0 s = (Await f, s1)
    /\ fr_method f = m
    /\ verb (fr_request f) = (if String.eqb (upper m) "GET" then GET else POST)
    /\ req_path (fr_request f) = fst (fst d)
    /\ req_headers (fr_request f) = snd (fst d).
Proof.
  intros Hdry Hs Hm Hv. destruct d as [[url_path headers] body].
  unfold strike_begin, dispatch. rewrite Hdry, Hm. cbn [engine set_random].
  rewrite Hs. destruct (String.eqb (upper m) "GET") eqn:Eg.
  - eexists. eexists. split; [reflexivity|]. cbn. auto.
  - destruct Hv as [Hv|Hv].
    + apply String.eqb_neq in Eg. contradiction.
    + rewrite Hv. cbn [String.eqb]. eexists. eexists.
      split; [reflexivity|]. cbn. auto.
Qed.

Lemma strike_resume_spec f reply t1 s res s2 :
  strike_resume f reply t1 s = (res, s2) ->
  wire s2 = wire s
  /\ created s2 = created s /\ inflight s2 = inflight s
  /\ returned s2 = returned s
  /\ match reply with
     | Response status =>
         res = Returned ((200 <=? status) && (status <? 400))
         /\ latencies (engine s2)
            = latencies (engine s) ++ [((t1 - fr_start_time f) * 1000)%Q]
         /\ counter (engine s2)
            = bump ((200 <=? status) && (status <? 400)) (counter (engine s))
     | Throws e =>
         latencies (engine s2) = latencies (engine s)
         /\ if is_Exception e
            then res = Returned false
                 /\ counter (engine s2) = bump false (counter (engine s))
            else res = Propagated e /\ engine s2 = engine s
     end.
Proof.
  unfold strike_resume. destruct reply as [status|e].
  - destruct ((200 <=? status) && (status <? 400));
      intros [= <- <-]; cbn; auto 10.
  - rewrite strike_except_spec. destruct (is_Exception e);
      intros [= <- <-]; cbn; auto 10.
Qed.

(** C2.  A live call of [strike] that receives a response returns [True]
    and counts a success exactly when [200 <= status < 400]; otherwise it
    returns [False] and counts a failure. *)
Theorem C2_status_classification d t0 net s f s1 status t1 :
  dry_run (engine s) = false ->
  strike_begin d t0 s = (Await f, s1) ->
  net (fr_request f) = (Response status, t1) ->
  exists b s2,
    strike d t0 net s = (Returned b, s2)
    /\ (b = true <-> 200 <= status < 400)
    /\ counter (engine s2)
       = (if b then (fst (counter (engine s)) + 1, snd (counter (engine s)))
          else (fst (counter (engine s)), snd (counter (engine s)) + 1)).
Proof.
  intros _ Hb Hn. unfold strike. rewrite Hb, Hn.
  destruct (strike_resume f (Response status) t1 s1) as [res s2] eqn:Hr.
  destruct (strike_begin_await _ _ _ _ _ Hb) as (_ & He & _).
  destruct (strike_resume_spec _ _ _ _ _ _ Hr) as (_ & _ & _ & _ & -> & _ & Hc).
  exists ((200 <=? status) && (status <? 400)), s2.
  split; [reflexivity|]. split.
  - rewrite andb_true_iff, Z.leb_le, Z.ltb_lt. tauto.
  - rewrite Hc, He. reflexivity.
Qed.

Lemma C2_status_classification_witness :
  dry_run (engine poster_sys) = false
  /\ strike_begin poster_descriptor 6 poster_sys
     = (Await poster_frame, send poster_request poster_sys)
  /\ answering (Response 302) 7 (fr_request poster_frame) = (Response 302, 7%Q)
  /\ exists b s2,
       strike poster_descriptor 6 (answering (Response 302) 7) poster_sys
       = (Returned b, s2)
       /\ (b = true <-> 200 <= 302 < 400)
       /\ counter (engine s2)
          = (if b
             then (fst (counter (engine poster_sys)) + 1,
                   snd (counter (engine poster_sys)))
             else (fst (counter (engine poster_sys)),
                   snd (counter (engine poster_sys)) + 1)).
Proof.
  split; [reflexivity|]. split; [reflexivity|]. split; [reflexivity|].
  apply (C2_status_classification poster_descriptor 6
           (answering (Response 302) 7) poster_sys poster_frame
           (send poster_request poster_sys) 302 7); reflexivity.
Defined.

(** C3.  When the awaited call raises a transport fault (an
    [httpx.HTTPError]; more generally any [Exception]), [strike] catches it,
    counts one failure, records no latency and returns [False]; the request
    it handed to the session is the only one: nothing is sent again. *)
Theorem C3_transport_fault_absorbed d t0 net s f s1 e t1 :
  strike_begin d t0 s = (Await f, s1) ->
  net (fr_request f) = (Throws e, t1) ->
  (is_HTTPError e = true \/ is_Exception e = true) ->
  exists s2,
    strike d t0 net s = (Returned false, s2)
    /\ counter (engine s2)
       = (fst (counter (engine s)), snd (counter (engine s)) + 1)
    /\ latencies (engine s2) = latencies (engine s)
    /\ wire s2 = wire s ++ [fr_request f].
Proof.
  intros Hb Hn He.
  assert (Hex : is_Exception e = true).
  { destruct He as [He|He]; [|exact He]. destruct e; try discriminate. reflexivity. }
  unfold strike. rewrite Hb, Hn.
  destruct (strike_resume f (Throws e) t1 s1) as [res s2] eqn:Hr.
  destruct (strike_begin_await _ _ _ _ _ Hb) as (_ & Heng & Hw & _).
  destruct (strike_resume_spec _ _ _ _ _ _ Hr) as (Hw2 & _ & _ & _ & Hl & Hc).
  rewrite Hex in Hc. destruct Hc as [-> Hc].
  exists s2. split; [reflexivity|].
  rewrite Hc, Hl, Hw2, Hw, Heng. auto.
Qed.

Lemma C3_transport_fault_absorbed_witness :
  strike_begin poster_descriptor 6 poster_sys
  = (Await poster_frame, send poster_request poster_sys)
  /\ answering (Throws (HTTPError ConnectionRefused)) 7 (fr_request poster_frame)
     = (Throws (HTTPError ConnectionRefused), 7%Q)
  /\ exists s2,
       strike poster_descriptor 6
         (answering (Throws (HTTPError ConnectionRefused)) 7) poster_sys
       = (Returned false, s2)
       /\ counter (engine s2)
          = (fst (counter (engine poster_sys)),
             snd (counter (engine poster_sys)) + 1)
       /\ latencies (engine s2) = latencies (engine poster_sys)
       /\ wire s2 = wire poster_sys ++ [fr_request poster_frame].
Proof.
  split; [reflexivity|]. split; [reflexivity|].
  apply (C3_transport_fault_absorbed poster_descriptor 6
           (answering (Throws (HTTPError ConnectionRefused)) 7) poster_sys
           poster_frame (send poster_request poster_sys)
           (HTTPError ConnectionRefused) 7);
    [reflexivity | reflexivity | left; reflexivity].
Defined.

(** C9.  A live call of [strike] whose resolved method is neither GET nor
    POST counts one failure and returns [False]; it hands nothing to the
    session and records no latency. *)
Theorem C9_unsupported_method d t0 net s m r :
  dry_run (engine s) = false ->
  resolve_method (engine s) (random s) = Ok (m, r) ->
  upper m <> "GET" ->
  upper m <> "POST" ->
  exists s',
    strike d t0 net s = (Returned false, s')
    /\ counter (engine s')
       = (fst (counter (engine s)), snd (counter (engine s)) + 1)
    /\ wire s' = wire s
    /\ latencies (engine s') = latencies (engine s).
Proof.
  intros Hdry Hm Hg Hp. destruct d as [[url_path headers] body].
  unfold strike, strike_begin. rewrite Hdry, Hm.
  apply String.eqb_neq in Hg, Hp. rewrite Hg, Hp.
  eexists. split; [reflexivity|]. cbn. auto.
Qed.

Lemma C9_unsupported_method_witness :
  dry_run (engine (boot putter sevens)) = false
  /\ resolve_method (engine (boot putter sevens)) (random (boot putter sevens))
     = Ok ("put", sevens)
  /\ upper "put" <> "GET"
  /\ upper "put" <> "POST"
  /\ exists s',
       strike poster_descriptor 6 (answering (Response 200) 7) (boot putter sevens)
       = (Returned false, s')
       /\ counter (engine s')
          = (fst (counter (engine (boot putter sevens))),
             snd (counter (engine (boot putter sevens))) + 1)
       /\ wire s' = wire (boot putter sevens)
       /\ latencies (engine s') = latencies (engine (boot putter sevens)).
Proof.
  split; [reflexivity|]. split; [reflexivity|].
  split; [discriminate|]. split; [discriminate|].
  apply (C9_unsupported_method poster_descriptor 6 (answering (Response 200) 7)
           (boot putter sevens) "put" sevens);
    [reflexivity | reflexivity | discriminate | discriminate].
Defined.

(** ** Latency samples *)

(** Under every schedule the latency list only grows at its end. *)
Lemma step_latencies_append_only ev s s' :
  step ev s = Some s' ->
  exists added, latencies (engine s') = latencies (engine s) ++ added.
Proof.
  destruct ev as [now|i t0|i reply t1|now]; cbn [step].
  - destruct (generate_request (engine s) now (random s)) as [[d r]|e];
      [|discriminate].
    intros [= <-]. exists []. cbn. by rewrite app_nil_r.
  - destruct (created s !! i) as [d|]; [|discriminate].
    destruct (strike_begin d t0 (set_created (delete i (created s)) s))
      as [[res|f] s1] eqn:Hb; intros [= <-]; exists [];
      rewrite app_nil_r.
    + destruct (strike_begin_done _ _ _ _ _ Hb) as (_ & Hl & _).
      destruct res; cbn in *; exact Hl.
    + destruct (strike_begin_await _ _ _ _ _ Hb) as (_ & He & _).
      cbn in *. by rewrite He.
  - destruct (inflight s !! i) as [f|]; [|discriminate].
    destruct (strike_resume f reply t1 (set_inflight (delete i (inflight s)) s))
      as [res s1] eqn:Hr.
    intros [= <-].
    destruct (strike_resume_spec _ _ _ _ _ _ Hr) as (_ & _ & _ & _ & Hrep).
    destruct reply as [status|e].
    + destruct Hrep as (-> & Hl & _). eexists. cbn in *. exact Hl.
    + destruct Hrep as (Hl & _). exists []. rewrite app_nil_r.
      destruct res; cbn in *; exact Hl.
  - intros [= <-]. exists []. by rewrite app_nil_r.
Qed.

Lemma exec_latencies_append_only sched : forall s,
  exists added, latencies (engine (exec sched s)) = latencies (engine s) ++ added.
Proof.
  induction sched as [|ev sched IH]; intros s; cbn [exec].
  - exists []. by rewrite app_nil_r.
  - destruct (step ev s) as [s'|] eqn:Hstep; [|apply IH].
    destruct (step_latencies_append_only _ _ _ Hstep) as [a1 H1].
    destruct (IH s') as [a2 H2].
    exists (a1 ++ a2). by rewrite H2, H1, app_assoc.
Qed.




(** ** RANDOM mode *)

(** C4 fails on the code: [strike] draws the method again (line 184)
    instead of using the one [generate_request] resolved (line 169).  Here a
    descriptor built as POST, with its JSON body and [Content-Type] header,
    is dispatched as a GET without the body; and one built as GET is
    dispatched as a POST whose JSON body is [None]. *)
Theorem C4_random_mode_redraws_method :
  (generate_request_resolved mixer 8 (one_at 3 0)
   = Ok (METHOD_POST, built_as_post, one_at 3 6)
   /\ strike_begin built_as_post 9 (boot mixer (one_at 3 6))
      = (Await {| fr_method := METHOD_GET; fr_start_time := 9;
                  fr_request :=
                    {| verb := GET; req_path := "/api/submit?q=100000";
                       req_headers :=
                         <["Content-Type" := "application/json"]> mixer_headers;
                       req_json := None |} |},
         send {| verb := GET; req_path := "/api/submit?q=100000";
                 req_headers :=
                   <["Content-Type" := "application/json"]> mixer_headers;
                 req_json := None |}
              (boot mixer (one_at 3 7))))
  /\ (generate_request_resolved mixer 8 (one_at 4 0)
      = Ok (METHOD_GET, built_as_get, one_at 4 4)
      /\ strike_begin built_as_get 9 (boot mixer (one_at 4 4))
         = (Await {| fr_method := METHOD_POST; fr_start_time := 9;
                     fr_request :=
                       {| verb := POST; req_path := "/api/submit?q=100000";
                          req_headers := mixer_headers;
                          req_json := None |} |},
            send {| verb := POST; req_path := "/api/submit?q=100000";
                    req_headers := mixer_headers; req_json := None |}
                 (boot mixer (one_at 4 5)))).
Proof. repeat split; vm_compute; reflexivity. Qed.

(** ** The counters *)

Lemma tally_cons b b' l :
  tally b (b' :: l) = if Bool.eqb b' b then tally b l + 1 else tally b l.
Proof.
  unfold tally. cbn [count_occ].
  destruct (bool_dec b' b) as [->|Hne].
  - rewrite Bool.eqb_reflx. lia.
  - apply Bool.eqb_false_iff in Hne. rewrite Hne. reflexivity.
Qed.

Lemma tally_total l : tally true l + tally false l = Z.of_nat (length l).
Proof.
  induction l as [|b l IH]; [reflexivity|].
  rewrite !tally_cons. cbn [length]. rewrite Nat2Z.inj_succ.
  destruct b; cbn [Bool.eqb]; lia.
Qed.

(** A call that returned [b], counted once, keeps the counters in step. *)
Lemma counted_record b s s' :
  counted s ->
  counter (engine s') = bump b (counter (engine s)) ->
  returned s' = returned s ->
  counted (record (Returned b) s').
Proof.
  unfold counted. intros [Hs Hf] Hc Hr. cbn. rewrite Hc, Hr, !tally_cons.
  destruct b; cbn; rewrite Hs, Hf; auto.
Qed.

(** What one event does to the counters: nothing, or one attempt counted
    for a call of [strike] that returned. *)
Lemma step_counter ev s s' :
  step ev s = Some s' ->
  (counter (engine s') = counter (engine s) /\ returned s' = returned s)
  \/ (exists b, counter (engine s') = bump b (counter (engine s))
                /\ returned s' = b :: returned s).
Proof.
  destruct ev as [now|i t0|i reply t1|now]; cbn [step].
  - destruct (generate_request (engine s) now (random s)) as [[d r]|e];
      [|discriminate].
    intros [= <-]. left. auto.
  - destruct (created s !! i) as [d|]; [|discriminate].
    destruct (strike_begin d t0 (set_created (delete i (created s)) s))
      as [[res|f] s1] eqn:Hb; intros [= <-].
    + destruct (strike_begin_done _ _ _ _ _ Hb) as (_ & _ & _ & _ & Hr & Hc).
      destruct res as [b|e]; cbn in *.
      * right. exists b. rewrite Hc, Hr. auto.
      * left. auto.
    + destruct (strike_begin_await _ _ _ _ _ Hb) as (_ & He & _ & _ & _ & _ & Hr).
      left. cbn in *. rewrite He. auto.
  - destruct (inflight s !! i) as [f|]; [|discriminate].
    destruct (strike_resume f reply t1 (set_inflight (delete i (inflight s)) s))
      as [res s1] eqn:Hr.
    intros [= <-].
    destruct (strike_resume_spec _ _ _ _ _ _ Hr) as (_ & _ & _ & Hret & Hrep).
    destruct reply as [status|e].
    + destruct Hrep as (-> & _ & Hc). right.
      eexists. cbn in *. rewrite Hc, Hret. auto.
    + destruct Hrep as (_ & Hc). destruct (is_Exception e).
      * destruct Hc as [-> Hc]. right. exists false. cbn in *.
        rewrite Hc, Hret. auto.
      * destruct Hc as [-> Hc]. left. cbn in *. rewrite Hc. auto.
  - intros [= <-]. left. auto.
Qed.

Lemma step_counted ev s s' : step ev s = Some s' -> counted s -> counted s'.
Proof.
  intros Hstep [Hs Hf].
  destruct (step_counter _ _ _ Hstep) as [[Hc Hr]|(b & Hc & Hr)];
    unfold counted; rewrite Hc, Hr.
  - auto.
  - rewrite !tally_cons. destruct b; cbn; rewrite Hs, Hf; auto.
Qed.

Lemma exec_counted sched : forall s, counted s -> counted (exec sched s).
Proof.
  induction sched as [|ev sched IH]; intros s Hs; cbn [exec]; [exact Hs|].
  destruct (step ev s) as [s'|] eqn:Hstep.
  - apply IH. eapply step_counted; eauto.
  - apply IH, Hs.
Qed.

Lemma boot_counted self r : counter self = (0, 0) -> counted (boot self r).
Proof. intros H. unfold counted. cbn. rewrite H. split; reflexivity. Qed.

Lemma aenter_counter t self : counter (aenter t self) = counter self.
Proof. unfold aenter. cbn. destruct (dry_run self); reflexivity. Qed.

Lemma run_counted sched s : counted s -> counted (run sched s).
Proof.
  intros H. unfold run. destruct (dry_run (engine s)); [exact H|].
  apply (exec_counted sched) in H. exact H.
Qed.

(** One whole call of [strike] that returns counts exactly one attempt. *)
Lemma strike_counts_once d t0 net s res s' :
  strike d t0 net s = (res, s') ->
  match res with
  | Returned b => counter (engine s') = bump b (counter (engine s))
  | Propagated _ => counter (engine s') = counter (engine s)
  end.
Proof.
  unfold strike. destruct (strike_begin d t0 s) as [[r0|f] s1] eqn:Hb.
  - intros [= <- <-].
    destruct (strike_begin_done _ _ _ _ _ Hb) as (_ & _ & _ & _ & _ & Hc).
    exact Hc.
  - destruct (strike_begin_await _ _ _ _ _ Hb) as (_ & He & _).
    destruct (net (fr_request f)) as [reply t1]. intros Hr.
    destruct (strike_resume_spec _ _ _ _ _ _ Hr) as (_ & _ & _ & _ & Hrep).
    rewrite <- He. destruct reply as [status|e].
    + destruct Hrep as (-> & _ & Hc). exact Hc.
    + destruct Hrep as (_ & Hc). destruct (is_Exception e).
      * destruct Hc as [-> Hc]. exact Hc.
      * destruct Hc as [-> Hc]. rewrite Hc. reflexivity.
Qed.

(** [random.choice] of two methods cannot raise, so a call of [strike]
    that ends before any [await] ends by returning. *)
Lemma strike_begin_returns d t0 s res s1 :
  strike_begin d t0 s = (Done res, s1) -> exists b, res = Returned b.
Proof.
  destruct d as [[url_path headers] body]. unfold strike_begin.
  destruct (dry_run (engine s)); [intros [= <- _]; eauto|].
  destruct (resolve_method_returns (engine s) (random s)) as (m & r & ->).
  unfold dispatch. cbn [engine set_random].
  destruct (session (engine s)).
  - destruct (String.eqb (upper m) "GET");
      [|destruct (String.eqb (upper m) "POST")]; try discriminate.
    intros [= <- _]. eauto.
  - rewrite strike_except_spec. cbn [is_Exception].
    destruct (String.eqb (upper m) "GET");
      [|destruct (String.eqb (upper m) "POST")];
      intros [= <- _]; eauto.
Qed.

(** How a call of [strike] ends: it returns and has counted one attempt,
    or the awaited call raised an exception it does not catch, which
    leaves it with the counters as they were. *)
Lemma strike_ends d t0 net s :
  (exists b s',
     strike d t0 net s = (Returned b, s')
     /\ counter (engine s') = bump b (counter (engine s)))
  \/ (exists f s1 e t1 s',
        strike_begin d t0 s = (Await f, s1)
        /\ net (fr_request f) = (Throws e, t1)
        /\ is_Exception e = false
        /\ strike d t0 net s = (Propagated e, s')
        /\ counter (engine s') = counter (engine s)
        /\ wire s' = wire s ++ [fr_request f]).
Proof.
  destruct (strike d t0 net s) as [res s'] eqn:Hs.
  pose proof (strike_counts_once _ _ _ _ _ _ Hs) as Hc.
  revert Hs. unfold strike.
  destruct (strike_begin d t0 s) as [[r0|f] s1] eqn:Hb.
  - intros [= <- <-]. destruct (strike_begin_returns _ _ _ _ _ Hb) as [b ->].
    left. eauto.
  - destruct (net (fr_request f)) as [reply t1] eqn:Hn. intros Hr.
    destruct (strike_begin_await _ _ _ _ _ Hb) as (_ & _ & Hw & _).
    destruct (strike_resume_spec _ _ _ _ _ _ Hr) as (Hw2 & _ & _ & _ & Hrep).
    destruct reply as [status|e].
    + destruct Hrep as (-> & _). left. eauto.
    + destruct Hrep as (_ & Hrep). destruct (is_Exception e) eqn:He.
      * destruct Hrep as [-> _]. left. eauto.
      * destruct Hrep as [-> _]. right.
        exists f, s1, e, t1, s'. rewrite Hw2, Hw. auto 10.
Qed.

(** What one event does to the number of attempts counted or suspended:
    a start adds one, an exception that is not caught takes one away. *)
Lemma step_attempts ev s s' :
  step ev s = Some s' ->
  fst (counter (engine s')) + snd (counter (engine s'))
  + Z.of_nat (length (inflight s'))
  + (if is_cancel ev then 1 else 0)
  = fst (counter (engine s)) + snd (counter (engine s))
    + Z.of_nat (length (inflight s))
    + (if is_start ev then 1 else 0).
Proof.
  destruct ev as [now|i t0|i reply t1|now]; cbn [step is_start is_cancel].
  - destruct (generate_request (engine s) now (random s)) as [[d r]|e];
      [|discriminate].
    intros [= <-]. cbn. lia.
  - destruct (created s !! i) as [d|]; [|discriminate].
    destruct (strike_begin d t0 (set_created (delete i (created s)) s))
      as [[res|f] s1] eqn:Hb; intros [= <-].
    + destruct (strike_begin_returns _ _ _ _ _ Hb) as [b ->].
      destruct (strike_begin_done _ _ _ _ _ Hb) as (_ & _ & _ & Hi & _ & Hc).
      cbn in *. rewrite Hc, Hi. destruct b; cbn; lia.
    + destruct (strike_begin_await _ _ _ _ _ Hb)
        as (_ & He & _ & _ & _ & Hi & _).
      cbn in *. rewrite He, length_app, Hi. cbn. lia.
  - destruct (inflight s !! i) as [f|] eqn:Ef; [|discriminate].
    assert (Hlen : S (length (delete i (inflight s))) = length (inflight s)).
    { rewrite length_delete by eauto. apply lookup_lt_Some in Ef. lia. }
    destruct (strike_resume f reply t1 (set_inflight (delete i (inflight s)) s))
      as [res s1] eqn:Hr.
    intros [= <-].
    destruct (strike_resume_spec _ _ _ _ _ _ Hr) as (_ & _ & Hi & _ & Hrep).
    destruct reply as [status|e].
    + destruct Hrep as (-> & _ & Hc). cbn in *. rewrite Hc, Hi.
      destruct ((200 <=? status) && (status <? 400)); cbn; lia.
    + destruct Hrep as (_ & Hc). destruct (is_Exception e).
      * destruct Hc as [-> Hc]. cbn in *. rewrite Hc, Hi. cbn. lia.
      * destruct Hc as [-> Hc]. cbn in *. rewrite Hc, Hi. lia.
  - intros [= <-]. lia.
Qed.

(** Every call started is counted, suspended, or was left by an exception
    that is not caught. *)
Lemma exec_attempts sched : forall s,
  fst (counter (engine (exec sched s))) + snd (counter (engine (exec sched s)))
  + Z.of_nat (length (inflight (exec sched s)))
  + Z.of_nat (cancelled sched s)
  = fst (counter (engine s)) + snd (counter (engine s))
    + Z.of_nat (length (inflight s))
    + Z.of_nat (started sched s).
Proof.
  unfold cancelled, started.
  induction sched as [|ev sched IH]; intros s; cbn [exec occurrences].
  - lia.
  - destruct (step ev s) as [s'|] eqn:E; [|apply IH].
    pose proof (step_attempts _ _ _ E) as H. specialize (IH s').
    destruct (is_cancel ev), (is_start ev); lia.
Qed.

(** C1, as the code has it.  From a fresh engine and under every schedule,
    the success counter is the number of calls of [strike] that returned
    [True] and the failure counter the number that returned [False]: their
    sum is the number of calls that have returned, which is the number of
    calls started less those still suspended at their [await] and those
    left by an exception that is not caught.  This also holds of the state
    the whole program ends in.  Every call of [strike] either returns,
    having added one to exactly one counter, or is left by such an
    exception with both counters untouched; and every event either leaves
    both counters alone or is such a return. *)
Theorem C1_counters_count_returned_calls :
  (forall urlparse url w so m rl du dr t r sched,
     let s0 := boot (aenter t (init urlparse url w so m rl du dr)) r in
     let s := exec sched s0 in
     counted s
     /\ fst (counter (engine s)) + snd (counter (engine s))
        = Z.of_nat (length (returned s))
     /\ fst (counter (engine s)) + snd (counter (engine s))
        = Z.of_nat (started sched s0) - Z.of_nat (length (inflight s))
          - Z.of_nat (cancelled sched s0))
  /\ (forall urlparse rich args r t sched t',
        let s := snd (run_wrapper urlparse rich args r t sched t') in
        fst (counter (engine s)) + snd (counter (engine s))
        = Z.of_nat (length (returned s)))
  /\ (forall d t0 net s,
        (exists b s',
           strike d t0 net s = (Returned b, s')
           /\ counter (engine s')
              = (if b
                 then (fst (counter (engine s)) + 1, snd (counter (engine s)))
                 else (fst (counter (engine s)), snd (counter (engine s)) + 1)))
        \/ (exists f s1 e t1 s',
              strike_begin d t0 s = (Await f, s1)
              /\ net (fr_request f) = (Throws e, t1)
              /\ is_Exception e = false
              /\ strike d t0 net s = (Propagated e, s')
              /\ counter (engine s') = counter (engine s)
              /\ wire s' = wire s ++ [fr_request f]))
  /\ (forall ev s s',
        step ev s = Some s' ->
        (counter (engine s') = counter (engine s) /\ returned s' = returned s)
        \/ (exists b, counter (engine s') = bump b (counter (engine s))
                      /\ returned s' = b :: returned s)).
Proof.
  split; [|split; [|split]].
  - intros up u w so m rl du dr t r sched s0 s.
    assert (H : counted s).
    { apply exec_counted, boot_counted. rewrite aenter_counter. reflexivity. }
    split; [exact H|]. split.
    + destruct H as [-> ->]. apply tally_total.
    + pose proof (exec_attempts sched s0) as Ha. fold s in Ha.
      assert (Hc0 : counter (engine s0) = (0, 0))
        by (subst s0; cbn [engine boot]; apply aenter_counter).
      assert (Hi0 : inflight s0 = []) by reflexivity.
      rewrite Hc0, Hi0 in Ha. cbn [fst snd length] in Ha. lia.
  - intros up rich args r t sched t' s.
    assert (H : counted s).
    { subst s. unfold run_wrapper, aexit. cbn [snd].
      match goal with
      | |- counted (set_engine _ (run sched ?s0)) =>
          assert (H0 : counted (run sched s0))
            by (apply run_counted, boot_counted; rewrite aenter_counter;
                reflexivity);
          exact H0
      end. }
    destruct H as [-> ->]. apply tally_total.
  - intros d t0 net s.
    destruct (strike_ends d t0 net s) as [(b & s' & Hs & Hc)|H].
    + left. exists b, s'. split; [exact Hs|]. rewrite Hc.
      destruct b; reflexivity.
    + right. exact H.
  - exact step_counter.
Qed.

(** C1 as stated fails: here two calls of [strike] have been started and
    two requests handed to the session, one call has returned and the other
    is still suspended, and success + failure is 1, not 2; and a call whose
    awaited request is cancelled ends with neither counter moved. *)
Lemma C1_counterexample :
  started short_schedule poster_sys = 2%nat
  /\ length (wire (exec short_schedule poster_sys)) = 2%nat
  /\ length (inflight (exec short_schedule poster_sys)) = 1%nat
  /\ counter (engine (exec short_schedule poster_sys)) = (1, 0)
  /\ fst (counter (engine (exec short_schedule poster_sys)))
     + snd (counter (engine (exec short_schedule poster_sys)))
     <> Z.of_nat (started short_schedule poster_sys)
  /\ fst (strike poster_descriptor 6 (answering (Throws CancelledError) 7)
            poster_sys)
     = Propagated CancelledError
  /\ counter (engine (snd (strike poster_descriptor 6
                             (answering (Throws CancelledError) 7)
                             poster_sys)))
     = counter (engine poster_sys).
Proof.
  split; [vm_compute; reflexivity|]. split; [vm_compute; reflexivity|].
  split; [vm_compute; reflexivity|]. split; [vm_compute; reflexivity|].
  split; [vm_compute; discriminate|]. split; reflexivity.
Qed.

(** ** Dry run *)

Lemma run_dry sched s : dry_run (engine s) = true -> run sched s = s.
Proof. intros H. unfold run. rewrite H. reflexivity. Qed.

(** C5, as the code has it.  With [workers=1, sockets=1, rate_limit=1] and
    [dry_run] set, [run] returns before any worker is created: when the
    program ends both counters are 0, no call of [strike] was made, no
    session exists and no request was handed to one; the statistics show a
    total of 0. *)
Theorem C5_dry_run_counts_nothing urlparse rich url m du r t sched t' :
  let s := snd (run_wrapper urlparse rich (dry_args url m du) r t sched t') in
  counter (engine s) = (0, 0)
  /\ returned s = []
  /\ wire s = []
  /\ session (engine s) = None
  /\ st_total_requests (get_stats_table (engine s) t') = 0.
Proof.
  intros s. subst s. unfold run_wrapper. rewrite run_dry by reflexivity.
  repeat split.
Qed.

(** C5 as stated fails: after the dry run the success counter is 0, not 1;
    no attempt at all has been counted, whatever the duration. *)
Lemma C5_counterexample :
  counter (engine (snd (run_wrapper Sample.urlparse true
                          (dry_args target METHOD_POST None) sevens 5
                          [EvGenerate 5; EvStart 0 5] 6)))
  = (0, 0)
  /\ counter (engine (snd (run_wrapper Sample.urlparse true
                             (dry_args target METHOD_POST (Some 1)) sevens 5
                             [EvGenerate 5; EvStart 0 5] 6)))
     = (0, 0)
  /\ fst (counter (engine (snd (run_wrapper Sample.urlparse true
                                  (dry_args target METHOD_POST None) sevens 5
                                  [EvGenerate 5; EvStart 0 5] 6))))
     <> 1.
Proof. split; [reflexivity|]. split; [reflexivity|]. discriminate. Qed.

(** ** Statistics *)

Lemma gt_spec a b : Py.gt a b = true <-> (b < a)%Q.
Proof.
  unfold Py.gt. rewrite negb_true_iff, <- not_true_iff_false, Qle_bool_iff.
  split; [apply Qnot_le_lt | apply Qlt_not_le].
Qed.

Lemma gt_false a b : Py.gt a b = false <-> (a <= b)%Q.
Proof. unfold Py.gt. rewrite negb_false_iff. apply Qle_bool_iff. Qed.

(** [sum] adds up the items, in whichever order one reads them. *)
Lemma sum_from a l : (fold_left Qplus l a == a + fold_right Qplus 0 l)%Q.
Proof.
  revert a. induction l as [|x l IH]; intros a; cbn [fold_left fold_right].
  - symmetry. apply Qplus_0_r.
  - rewrite IH. symmetry. apply Qplus_assoc.
Qed.

Lemma sum_spec l : (Py.sum l == fold_right Qplus 0 l)%Q.
Proof. unfold Py.sum. rewrite sum_from. apply Qplus_0_l. Qed.

(** [max_from m l] is [m] or an item of [l], and bounds both. *)
Lemma max_from_spec l : forall m,
  (m <= Py.max_from m l)%Q
  /\ Forall (fun x => (x <= Py.max_from m l)%Q) l
  /\ (Py.max_from m l = m \/ In (Py.max_from m l) l).
Proof.
  unfold Py.max_from.
  induction l as [|x l IH]; intros m; cbn [fold_left].
  - split; [apply Qle_refl|]. split; [constructor|left; reflexivity].
  - destruct (Py.gt x m) eqn:E.
    + apply gt_spec in E. destruct (IH x) as (Hx & Hall & Hin).
      split; [eapply Qle_trans; [apply Qlt_le_weak, E|exact Hx]|].
      split; [constructor; assumption|].
      right. destruct Hin as [->|Hin]; [left; reflexivity|right; exact Hin].
    + apply gt_false in E. destruct (IH m) as (Hm & Hall & Hin).
      split; [exact Hm|].
      split; [constructor; [eapply Qle_trans; eassumption|assumption]|].
      destruct Hin as [Hin|Hin]; [left; exact Hin|right; right; exact Hin].
Qed.

(** C7.  The snapshot is: total = success + failure; rate = total / elapsed
    when elapsed is positive and 0 otherwise; the average latency is the sum
    of the samples over their number and the maximum latency is their
    largest item, both 0 when there is no sample.  Reading the statistics
    changes nothing, [__aexit__] leaves counters and samples as they were,
    and the plain output of [print_stats] shows the same total, rate and
    average. *)
Theorem C7_stats_snapshot self now :
  let st := get_stats_table self now in
  let elapsed := (now - start_time self)%Q in
  let n := inject_Z (Z.of_nat (length (latencies self))) in
  st_success st = fst (counter self)
  /\ st_failed st = snd (counter self)
  /\ st_total_requests st = fst (counter self) + snd (counter self)
  /\ ((elapsed <= 0)%Q -> st_rate st = 0%Q)
  /\ ((0 < elapsed)%Q ->
      st_rate st = (inject_Z (fst (counter self) + snd (counter self)) / elapsed)%Q)
  /\ (latencies self = [] ->
      st_avg_latency st = 0%Q /\ st_max_latency st = 0%Q)
  /\ (latencies self <> [] ->
      st_avg_latency st = (Py.sum (latencies self) / n)%Q
      /\ (st_avg_latency st * n == fold_right Qplus 0 (latencies self))%Q
      /\ Py.max (latencies self) = Ok (st_max_latency st)
      /\ In (st_max_latency st) (latencies self)
      /\ Forall (fun x => (x <= st_max_latency st)%Q) (latencies self))
  /\ (forall s, step (EvStats now) s = Some s)
  /\ (forall rich s,
        counter (engine (snd (aexit rich now s))) = counter (engine s)
        /\ latencies (engine (snd (aexit rich now s))) = latencies (engine s)
        /\ wire (snd (aexit rich now s)) = wire s
        /\ returned (snd (aexit rich now s)) = returned s)
  /\ print_stats true self now = RichTable st
  /\ print_stats false self now
     = PlainText (upper (method self)) (st_total_requests st) (st_rate st)
                 (st_success st) (st_failed st) (st_avg_latency st).
Proof.
  intros st elapsed n.
  assert (Hrich : print_stats true self now = RichTable st) by reflexivity.
  assert (Hplain : print_stats false self now
                   = PlainText (upper (method self)) (st_total_requests st)
                       (st_rate st) (st_success st) (st_failed st)
                       (st_avg_latency st)).
  { subst st. unfold print_stats, get_stats_table.
    destruct (counter self), (latencies self); reflexivity. }
  revert Hrich Hplain. subst st. unfold get_stats_table.
  destruct (counter self) as [success failed]. fold elapsed.
  cbn [fst snd]. intros Hrich Hplain.
  repeat match goal with |- _ /\ _ => split end.
  - destruct (latencies self); reflexivity.
  - destruct (latencies self); reflexivity.
  - destruct (latencies self); reflexivity.
  - intros H. apply gt_false in H. rewrite H. destruct (latencies self); reflexivity.
  - intros H. apply gt_spec in H. rewrite H. destruct (latencies self); reflexivity.
  - intros ->. split; reflexivity.
  - intros Hne. subst n. clear Hrich Hplain.
    destruct (latencies self) as [|x l] eqn:El; [contradiction|].
    cbn [st_avg_latency st_max_latency Py.max].
    destruct (max_from_spec l x) as (Hx & Hall & Hin).
    split; [reflexivity|]. split; [|split; [reflexivity|split]].
    + rewrite <- sum_spec. rewrite Qmult_comm. apply Qmult_div_r.
      cbn [length]. unfold Qeq. cbn. lia.
    + destruct Hin as [->|Hin]; [left; reflexivity|right; exact Hin].
    + constructor; assumption.
  - reflexivity.
  - intros rich s. auto.
  - exact Hrich.
  - exact Hplain.
Qed.

(** * Further properties *)

(** ** More on [generate_request] *)

Lemma bind_ok {A B} (m : Rand A) (k : A -> Rand B) r a r' :
  m r = Ok (a, r') -> bind m k r = k a r'.
Proof. intros H. unfold bind. rewrite H. reflexivity. Qed.

Lemma bind_raise {A B} (m : Rand A) (k : A -> Rand B) r e :
  m r = Raise e -> bind m k r = Raise e.
Proof. intros H. unfold bind. rewrite H. reflexivity. Qed.

Lemma randint_draw a b r :
  a <= b ->
  randint a b r
  = Ok (a + Z.of_N (tape r (cursor r)) mod (b - a + 1),
        {| tape := tape r; cursor := S (cursor r) |}).
Proof.
  intros H. unfold randint. destruct (b <? a) eqn:E; [|reflexivity].
  apply Z.ltb_lt in E. lia.
Qed.

Lemma randint_empty a b r : b < a -> randint a b r = Raise ValueError.
Proof.
  intros H. unfold randint. apply Z.ltb_lt in H. rewrite H. reflexivity.
Qed.

Lemma choice_draw {A} (a : A) (l : list A) r :
  choice (a :: l) r
  = Ok (nth (Z.to_nat (Z.of_N (tape r (cursor r))
                       mod Z.of_nat (length (a :: l)))) (a :: l) a,
        {| tape := tape r; cursor := S (cursor r) |}).
Proof. reflexivity. Qed.

Lemma choice_member {A} (l : list A) r x r' :
  choice l r = Ok (x, r') -> In x l.
Proof.
  destruct l as [|a l]; [discriminate|].
  rewrite choice_draw. intros H. injection H as <- _.
  assert (Hlt : (Z.to_nat (Z.of_N (tape r (cursor r))
                           mod Z.of_nat (length (a :: l)))
                 < length (a :: l))%nat).
  { pose proof (Z.mod_pos_bound (Z.of_N (tape r (cursor r)))
                  (Z.of_nat (length (a :: l)))) as Hb.
    cbn [length] in *. lia. }
  exact (nth_In (a :: l) a Hlt).
Qed.

(** What [resolve_method] can yield in a supported mode. *)
Lemma resolve_method_supported self r m r' :
  supported self ->
  resolve_method self r = Ok (m, r') ->
  upper m = "GET" \/ upper m = "POST".
Proof.
  unfold supported, resolve_method. intros Hs.
  destruct (String.eqb (method self) METHOD_RAND) eqn:E.
  - rewrite choice_draw. intros H. injection H as <- _.
    change (Z.of_nat 2) with 2.
    pose proof (Z.mod_pos_bound (Z.of_N (tape r (cursor r))) 2) as Hb.
    assert (Hk : Z.of_N (tape r (cursor r)) mod 2 = 0
                 \/ Z.of_N (tape r (cursor r)) mod 2 = 1) by lia.
    destruct Hk as [-> | ->]; [left|right]; reflexivity.
  - apply String.eqb_neq in E. unfold ret. intros [= <- _].
    destruct Hs as [Hs|Hs]; [contradiction|exact Hs].
Qed.

(** The draws behind a descriptor, in the order the source makes them. *)
Lemma generate_request_resolved_inv self now r m url_path headers body r' :
  generate_request_resolved self now r = Ok (m, (url_path, headers, body), r') ->
  exists q ua ref r3 r4,
    100000 <= q <= 999999
    /\ In ua (user_agents self)
    /\ 1000 <= ref <= 9999
    /\ resolve_method self r3 = Ok (m, r4)
    /\ url_path = path self +:+ "?q=" +:+ str q
    /\ headers
       = (if String.eqb (upper m) "POST"
          then <["Content-Type" := "application/json"]>
          else fun h : Headers => h)
         (<["Accept-Encoding" := "gzip, deflate, br"]>
         (<["Referer" := base_url self +:+ "/search?q=" +:+ str ref]>
         (<["Connection" := "keep-alive"]>
         (<["User-Agent" := ua]> ∅))))
    /\ (body <> None <-> upper m = "POST").
Proof.
  unfold generate_request_resolved. intros H.
  bind_step H q r1. bind_step H ua r2. bind_step H ref r3. bind_step H m' r4.
  exists q, ua, ref, r3, r4.
  apply randint_range in Eq. apply randint_range in Eref.
  apply choice_member in Eua.
  destruct (String.eqb (upper m') "POST") eqn:Em.
  - bind_step H k r5. bind_step H w r6. unfold ret in H.
    injection H as <- <- <- <- <-. rewrite Em.
    apply String.eqb_eq in Em.
    repeat split; auto; try lia; intros _; discriminate.
  - unfold ret in H. injection H as <- <- <- <- <-. rewrite Em.
    apply String.eqb_neq in Em.
    repeat split; auto; try lia; intros Hm; contradiction.
Qed.

Lemma generate_request_inv self now r d r' :
  generate_request self now r = Ok (d, r') ->
  exists m, generate_request_resolved self now r = Ok (m, d, r').
Proof.
  unfold generate_request. intros H. bind_step H md r1.
  unfold ret in H. injection H as <- <-. destruct md as [m d]. eauto.
Qed.

(** X1.  The path of every descriptor an engine generates is the path of
    the target URL, or [/] when the URL has none, followed by [?q=] and a
    number between 100000 and 999999. *)
Theorem generated_path_shape up u w so m rl du dr t now r url_path headers body r' :
  generate_request (aenter t (init up u w so m rl du dr)) now r
  = Ok ((url_path, headers, body), r') ->
  exists q,
    100000 <= q <= 999999
    /\ url_path
       = (if String.eqb (parsed_path (up u)) "" then "/" else parsed_path (up u))
         +:+ "?q=" +:+ str q.
Proof.
  intros H. apply generate_request_inv in H as [m' H].
  apply generate_request_resolved_inv in H
    as (q & ua & ref & r3 & r4 & Hq & _ & _ & _ & Hp & _).
  exists q. split; [exact Hq|]. rewrite Hp.
  unfold aenter. cbn [dry_run init set_start_time negb].
  destruct dr; reflexivity.
Qed.

Lemma generated_path_shape_witness :
  generate_request (aenter 5 (init Sample.urlparse target 3 2 METHOD_POST 0 None false))
    (17 # 2) sevens
  = Ok (poster_descriptor, {| tape := tape sevens; cursor := 5 |})
  /\ exists q,
       100000 <= q <= 999999
       /\ poster_path
          = (if String.eqb (parsed_path (Sample.urlparse target)) ""
             then "/" else parsed_path (Sample.urlparse target))
            +:+ "?q=" +:+ str q.
Proof.
  split; [vm_compute; reflexivity|].
  apply (generated_path_shape Sample.urlparse target 3 2 METHOD_POST 0 None
           false 5 (17 # 2) sevens poster_path poster_headers
           (Some poster_body) {| tape := tape sevens; cursor := 5 |}).
  vm_compute. reflexivity.
Defined.

(** X2.  Every generated descriptor has the headers [User-Agent] (one of
    the engine's user agents), [Connection: keep-alive], [Referer] (the base
    URL, [/search?q=] and a number between 1000 and 9999) and
    [Accept-Encoding: gzip, deflate, br]; it has [Content-Type:
    application/json] exactly when it has a body, and no other header. *)
Theorem generated_headers self now r url_path (headers : Headers) body r' :
  generate_request self now r = Ok ((url_path, headers, body), r') ->
  (exists ua, In ua (user_agents self) /\ headers !! "User-Agent" = Some ua)
  /\ headers !! "Connection" = Some "keep-alive"
  /\ (exists ref, 1000 <= ref <= 9999
        /\ headers !! "Referer"
           = Some (base_url self +:+ "/search?q=" +:+ str ref))
  /\ headers !! "Accept-Encoding" = Some "gzip, deflate, br"
  /\ (body <> None -> headers !! "Content-Type" = Some "application/json")
  /\ (body = None -> headers !! "Content-Type" = None)
  /\ (forall k v, headers !! k = Some v ->
        In k ["User-Agent"; "Connection"; "Referer"; "Accept-Encoding";
              "Content-Type"]).
Proof.
  intros H. apply generate_request_inv in H as [m' H].
  apply generate_request_resolved_inv in H
    as (q & ua & ref & r3 & r4 & _ & Hua & Href & _ & _ & Hh & Hb).
  destruct (String.eqb (upper m') "POST") eqn:Em; subst headers.
  - apply String.eqb_eq in Em.
    split; [exists ua; split; [exact Hua|by simplify_map_eq]|].
    split; [by simplify_map_eq|].
    split; [exists ref; split; [exact Href|by simplify_map_eq]|].
    split; [by simplify_map_eq|].
    split; [intros _; by simplify_map_eq|].
    split; [intros Hn; apply Hb in Em; contradiction|].
    intros k v Hk.
    repeat (apply lookup_insert_Some in Hk as [[<- _]|[_ Hk]];
            [cbn; tauto|]).
    rewrite lookup_empty in Hk. discriminate.
  - apply String.eqb_neq in Em.
    split; [exists ua; split; [exact Hua|by simplify_map_eq]|].
    split; [by simplify_map_eq|].
    split; [exists ref; split; [exact Href|by simplify_map_eq]|].
    split; [by simplify_map_eq|].
    split; [intros Hn; apply Hb in Hn; contradiction|].
    split; [intros _; by simplify_map_eq|].
    intros k v Hk.
    repeat (apply lookup_insert_Some in Hk as [[<- _]|[_ Hk]];
            [cbn; tauto|]).
    rewrite lookup_empty in Hk. discriminate.
Qed.

Lemma generated_headers_witness :
  generate_request poster (17 # 2) sevens
  = Ok (poster_descriptor, {| tape := tape sevens; cursor := 5 |})
  /\ poster_headers !! "Connection" = Some "keep-alive"
  /\ (Some poster_body <> None
      -> poster_headers !! "Content-Type" = Some "application/json").
Proof.
  assert (H : generate_request poster (17 # 2) sevens
              = Ok (poster_descriptor, {| tape := tape sevens; cursor := 5 |}))
    by (vm_compute; reflexivity).
  split; [exact H|].
  destruct (generated_headers poster (17 # 2) sevens poster_path poster_headers
              (Some poster_body) {| tape := tape sevens; cursor := 5 |} H)
    as (_ & Hc & _ & _ & Hct & _).
  split; [exact Hc|exact Hct].
Defined.

(** X3.  With a fixed method, [generate_request] raises [ValueError] when
    the method is POST and there is no worker ([randint(1, workers)] has an
    empty range); otherwise it returns, after exactly five draws for a POST
    and three for any other method, whatever the number of workers. *)
Theorem generate_request_post_needs_worker self now r :
  user_agents self <> [] ->
  method self <> METHOD_RAND ->
  (upper (method self) = "POST" -> workers self < 1 ->
   generate_request self now r = Raise ValueError)
  /\ (upper (method self) = "POST" -> 1 <= workers self ->
      exists d, generate_request self now r
                = Ok (d, {| tape := tape r; cursor := 5 + cursor r |}))
  /\ (upper (method self) <> "POST" ->
      exists d, generate_request self now r
                = Ok (d, {| tape := tape r; cursor := 3 + cursor r |})).
Proof.
  intros Hua Hfix.
  destruct (user_agents self) as [|ua uas] eqn:Eua; [contradiction|].
  unfold generate_request, generate_request_resolved.
  set (r3 := {| tape := tape r; cursor := S (S (S (cursor r))) |}).
  assert (Hhead : forall (k : Z -> string -> Z -> string -> Rand (string * Descriptor)),
            (q <- randint 100000 999999 ;;
             ua' <- choice (user_agents self) ;;
             ref <- randint 1000 9999 ;;
             m <- resolve_method self ;; k q ua' ref m) r
            = k (100000 + Z.of_N (tape r (cursor r)) mod (999999 - 100000 + 1))
                (nth (Z.to_nat (Z.of_N (tape r (S (cursor r)))
                                mod Z.of_nat (length (ua :: uas)))) (ua :: uas) ua)
                (1000 + Z.of_N (tape r (S (S (cursor r)))) mod (9999 - 1000 + 1))
                (method self) r3).
  { intros k. rewrite Eua.
    rewrite (bind_ok _ _ _ _ _ (randint_draw 100000 999999 r ltac:(lia))).
    rewrite (bind_ok _ _ _ _ _ (choice_draw ua uas _)).
    rewrite (bind_ok _ _ _ _ _ (randint_draw 1000 9999 _ ltac:(lia))).
    rewrite (bind_ok _ _ _ _ _ (resolve_method_fixed self _ Hfix)).
    reflexivity. }
  split; [|split].
  - intros Hp Hw. apply bind_raise.
    rewrite (Hhead (fun q ua' ref m => _)). rewrite Hp. cbn [String.eqb Ascii.eqb Bool.eqb].
    rewrite (bind_ok _ _ _ _ _ (randint_draw 1 1000 _ ltac:(lia))).
    apply bind_raise. apply randint_empty. lia.
  - intros Hp Hw. eexists.
    erewrite bind_ok; [reflexivity|].
    rewrite (Hhead (fun q ua' ref m => _)). rewrite Hp. cbn [String.eqb Ascii.eqb Bool.eqb].
    rewrite (bind_ok _ _ _ _ _ (randint_draw 1 1000 _ ltac:(lia))).
    rewrite (bind_ok _ _ _ _ _ (randint_draw 1 (workers self) _ Hw)).
    reflexivity.
  - intros Hp. eexists.
    erewrite bind_ok; [reflexivity|].
    rewrite (Hhead (fun q ua' ref m => _)).
    apply String.eqb_neq in Hp. rewrite Hp. reflexivity.
Qed.

Lemma generate_request_post_needs_worker_witness :
  user_agents workerless <> []
  /\ method workerless <> METHOD_RAND
  /\ generate_request workerless 8 sevens = Raise ValueError.
Proof.
  split; [discriminate|]. split; [discriminate|].
  apply (proj1 (generate_request_post_needs_worker workerless 8 sevens
                  ltac:(discriminate) ltac:(discriminate)));
    [reflexivity | reflexivity].
Defined.

(** ** More on [strike] *)

(** X4.  A call of [strike] that reaches its [await] has handed the
    session the descriptor's path and headers as they were given; the verb
    is the one of the method resolved inside [strike], a POST carries the
    descriptor's body as JSON and a GET carries none. *)
Theorem strike_sends_descriptor url_path headers body t0 s f s1 :
  strike_begin (url_path, headers, body) t0 s = (Await f, s1) ->
  resolve_method (engine s) (random s) = Ok (fr_method f, random s1)
  /\ req_path (fr_request f) = url_path
  /\ req_headers (fr_request f) = headers
  /\ ((upper (fr_method f) = "GET" /\ verb (fr_request f) = GET
       /\ req_json (fr_request f) = None)
      \/ (upper (fr_method f) = "POST" /\ verb (fr_request f) = POST
          /\ req_json (fr_request f) = body)).
Proof.
  unfold strike_begin.
  destruct (dry_run (engine s)); [discriminate|].
  destruct (resolve_method (engine s) (random s)) as [[m r]|e]; [|discriminate].
  unfold dispatch. cbn [engine set_random].
  destruct (session (engine s)).
  - destruct (String.eqb (upper m) "GET") eqn:Eg;
      [|destruct (String.eqb (upper m) "POST") eqn:Ep; [|discriminate]];
      intros [= <- <-]; cbn.
    + apply String.eqb_eq in Eg. auto 10.
    + apply String.eqb_eq in Ep. auto 10.
  - rewrite strike_except_spec. cbn [is_Exception].
    destruct (String.eqb (upper m) "GET");
      [|destruct (String.eqb (upper m) "POST")]; discriminate.
Qed.

Lemma strike_sends_descriptor_witness :
  strike_begin (poster_path, poster_headers, Some poster_body) 6 poster_sys
  = (Await poster_frame, send poster_request poster_sys)
  /\ req_path (fr_request poster_frame) = poster_path
  /\ req_headers (fr_request poster_frame) = poster_headers.
Proof.
  assert (H : strike_begin (poster_path, poster_headers, Some poster_body) 6
                poster_sys
              = (Await poster_frame, send poster_request poster_sys))
    by reflexivity.
  split; [exact H|].
  destruct (strike_sends_descriptor _ _ _ _ _ _ _ H) as (_ & Hp & Hh & _).
  split; [exact Hp|exact Hh].
Defined.

(** X5.  With a fixed GET or POST method, a descriptor from
    [generate_request] is dispatched as it was built: [strike] draws
    nothing, uses the configured method, and sends a POST with the
    descriptor's body exactly when the descriptor has one. *)
Theorem fixed_mode_dispatches_as_built now r d r' t0 s c :
  dry_run (engine s) = false ->
  session (engine s) = Some c ->
  method (engine s) <> METHOD_RAND ->
  upper (method (engine s)) = "GET" \/ upper (method (engine s)) = "POST" ->
  generate_request (engine s) now r = Ok (d, r') ->
  exists f s1,
    strike_begin d t0 s = (Await f, s1)
    /\ fr_method f = method (engine s)
    /\ random s1 = random s
    /\ req_path (fr_request f) = fst (fst d)
    /\ req_headers (fr_request f) = snd (fst d)
    /\ req_json (fr_request f) = snd d
    /\ (verb (fr_request f) = POST <-> snd d <> None).
Proof.
  intros Hdry Hs Hfix Hv Hg.
  apply generate_request_inv in Hg as [m Hg].
  destruct d as [[url_path headers] body].
  apply generate_request_resolved_inv in Hg
    as (q & ua & ref & r3 & r4 & _ & _ & _ & Hm & _ & _ & Hb).
  rewrite (resolve_method_fixed _ r3 Hfix) in Hm. injection Hm as <- _.
  destruct (strike_begin_dispatches (url_path, headers, body) t0 s _ _ c Hdry Hs
              (resolve_method_fixed _ (random s) Hfix) Hv)
    as (f & s1 & Hbeg & Hfm & Hverb & Hp & Hh).
  exists f, s1. split; [exact Hbeg|].
  destruct (strike_sends_descriptor _ _ _ _ _ _ _ Hbeg)
    as (Hres & _ & _ & Hcase).
  rewrite (resolve_method_fixed _ (random s) Hfix) in Hres.
  injection Hres as _ Hrand.
  cbn [fst snd] in *. rewrite Hfm in Hcase.
  repeat split; auto.
  - destruct Hcase as [(Hg' & _ & Hj)|(_ & _ & Hj)]; [|exact Hj].
    rewrite Hj. destruct body as [b|]; [|reflexivity].
    assert (Hp' : upper (method (engine s)) = "POST")
      by (apply Hb; discriminate).
    rewrite Hg' in Hp'. discriminate.
  - intros Hpost. apply Hb.
    destruct Hcase as [(_ & Hgv & _)|(Hp' & _ & _)]; [|exact Hp'].
    rewrite Hgv in Hpost. discriminate.
  - intros Hbody. apply Hb in Hbody.
    destruct Hcase as [(Hg' & _ & _)|(_ & Hpv & _)]; [|exact Hpv].
    rewrite Hg' in Hbody. discriminate.
Qed.

Lemma fixed_mode_dispatches_as_built_witness :
  generate_request (engine poster_sys) (17 # 2) sevens
  = Ok (poster_descriptor, {| tape := tape sevens; cursor := 5 |})
  /\ exists f s1,
       strike_begin poster_descriptor 6 poster_sys = (Await f, s1)
       /\ fr_method f = method (engine poster_sys)
       /\ random s1 = random poster_sys
       /\ req_path (fr_request f) = fst (fst poster_descriptor)
       /\ req_headers (fr_request f) = snd (fst poster_descriptor)
       /\ req_json (fr_request f) = snd poster_descriptor
       /\ (verb (fr_request f) = POST <-> snd poster_descriptor <> None).
Proof.
  assert (H : generate_request (engine poster_sys) (17 # 2) sevens
              = Ok (poster_descriptor, {| tape := tape sevens; cursor := 5 |}))
    by (vm_compute; reflexivity).
  split; [exact H|].
  apply (fixed_mode_dispatches_as_built (17 # 2) sevens poster_descriptor
           {| tape := tape sevens; cursor := 5 |} 6 poster_sys
           {| client_base_url := "https://example.com";
              max_keepalive_connections := 4; max_connections := 12;
              is_closed := false |});
    [reflexivity | reflexivity | discriminate | right; reflexivity | exact H].
Defined.

(** X6.  An exception outside [Exception] (a cancellation, a keyboard
    interrupt) raised by the awaited call is not caught: it leaves
    [strike], and the attempt, though its request was sent, is counted
    neither as a success nor as a failure and records no latency. *)
Theorem cancellation_not_counted d t0 net s f s1 e t1 :
  strike_begin d t0 s = (Await f, s1) ->
  net (fr_request f) = (Throws e, t1) ->
  is_Exception e = false ->
  exists s2,
    strike d t0 net s = (Propagated e, s2)
    /\ engine s2 = engine s
    /\ wire s2 = wire s ++ [fr_request f]
    /\ returned s2 = returned s.
Proof.
  intros Hb Hn He. unfold strike. rewrite Hb, Hn.
  destruct (strike_resume f (Throws e) t1 s1) as [res s2] eqn:Hr.
  destruct (strike_begin_await _ _ _ _ _ Hb)
    as (_ & Heng & Hw & _ & _ & _ & Hret).
  destruct (strike_resume_spec _ _ _ _ _ _ Hr)
    as (Hw2 & _ & _ & Hret2 & _ & Hc).
  rewrite He in Hc. destruct Hc as [-> Hc].
  exists s2. split; [reflexivity|].
  rewrite Hc, Hw2, Hret2, Heng, Hw, Hret. auto.
Qed.

Lemma cancellation_not_counted_witness :
  strike_begin poster_descriptor 6 poster_sys
  = (Await poster_frame, send poster_request poster_sys)
  /\ answering (Throws CancelledError) 7 (fr_request poster_frame)
     = (Throws CancelledError, 7%Q)
  /\ is_Exception CancelledError = false
  /\ exists s2,
       strike poster_descriptor 6 (answering (Throws CancelledError) 7) poster_sys
       = (Propagated CancelledError, s2)
       /\ engine s2 = engine poster_sys
       /\ wire s2 = wire poster_sys ++ [fr_request poster_frame]
       /\ returned s2 = returned poster_sys.
Proof.
  split; [reflexivity|]. split; [reflexivity|]. split; [reflexivity|].
  apply (cancellation_not_counted poster_descriptor 6
           (answering (Throws CancelledError) 7) poster_sys poster_frame
           (send poster_request poster_sys) CancelledError 7); reflexivity.
Defined.

(** ** Every schedule *)

Lemma exec_app a b s : exec (a ++ b) s = exec b (exec a s).
Proof.
  revert s. induction a as [|ev a IH]; intros s; [reflexivity|].
  cbn [exec app]. destruct (step ev s); apply IH.
Qed.

Lemma step_effect ev s s' : step ev s = Some s' -> effect s s'.
Proof.
  destruct ev as [now|i t0|i reply t1|now]; cbn [step].
  - destruct (generate_request (engine s) now (random s)) as [[d r]|e];
      [|discriminate].
    intros [= <-]. apply eff_idle; reflexivity.
  - destruct (created s !! i) as [[[url_path headers] body]|]; [|discriminate].
    unfold strike_begin. cbn [engine random set_created].
    destruct (dry_run (engine s)) eqn:Edry.
    { intros [= <-]. apply eff_dry; auto. }
    destruct (resolve_method (engine s) (random s)) as [[m r]|e].
    2:{ intros [= <-]. apply eff_idle; reflexivity. }
    unfold dispatch. cbn [engine set_random set_created].
    destruct (session (engine s)) eqn:Es.
    + destruct (String.eqb (upper m) "GET");
        [|destruct (String.eqb (upper m) "POST")]; intros [= <-].
      * eapply eff_send; cbn; try reflexivity; [exact Edry|congruence].
      * eapply eff_send; cbn; try reflexivity; [exact Edry|congruence].
      * apply eff_refused; auto.
    + rewrite strike_except_spec. cbn [is_Exception].
      destruct (String.eqb (upper m) "GET");
        [|destruct (String.eqb (upper m) "POST")]; intros [= <-];
        apply eff_refused; auto.
  - destruct (inflight s !! i) as [f|] eqn:Ef; [|discriminate].
    assert (Hlen : S (length (delete i (inflight s))) = length (inflight s)).
    { rewrite length_delete by eauto.
      apply lookup_lt_Some in Ef. lia. }
    unfold strike_resume. destruct reply as [status|e].
    + destruct ((200 <=? status) && (status <? 400)) eqn:Eb; intros [= <-].
      * apply (eff_response _ _ ((t1 - fr_start_time f) * 1000)%Q true);
          cbn; auto.
      * apply (eff_response _ _ ((t1 - fr_start_time f) * 1000)%Q false);
          cbn; auto.
    + rewrite strike_except_spec. destruct (is_Exception e); intros [= <-].
      * apply eff_fault; cbn; auto.
      * apply eff_idle; cbn; auto. lia.
  - intros [= <-]. apply eff_idle; reflexivity.
Qed.

(** An invariant of every effect holds along every schedule. *)
Lemma exec_invariant (P : Sys -> Prop) :
  (forall s s', effect s s' -> P s -> P s') ->
  forall sched s, P s -> P (exec sched s).
Proof.
  intros Hstep sched. induction sched as [|ev sched IH]; intros s Hs;
    cbn [exec]; [exact Hs|].
  destruct (step ev s) as [s'|] eqn:E; [|apply IH, Hs].
  apply IH. exact (Hstep _ _ (step_effect _ _ _ E) Hs).
Qed.

(** No schedule touches an attribute other than [counter] and [latencies]. *)
Lemma exec_frame sched s :
  exists c l,
    engine (exec sched s) = set_latencies l (set_counter c (engine s)).
Proof.
  apply (exec_invariant
           (fun s' => exists c l,
              engine s' = set_latencies l (set_counter c (engine s)))).
  - intros s1 s2 He (c & l & H).
    destruct He as [E _ _ _|q f E _ _ _ _ _|_ E _ _ _|_ E _ _ _|E _ _ _
                   |x b E _ _ _]; rewrite E, H.
    + eauto.
    + eauto.
    + eexists. eexists. reflexivity.
    + eexists. eexists. reflexivity.
    + eexists. eexists. reflexivity.
    + destruct b; eexists; eexists; reflexivity.
  - exists (counter (engine s)), (latencies (engine s)).
    destruct (engine s). reflexivity.
Qed.

(** X7.  Whatever the schedule, the configuration of the engine (target,
    workers, sockets, method, rate limit, dry-run flag, duration, user
    agents), its start time, its [running] flag and its session stay as
    they were: workers and calls of [strike] change nothing but [counter]
    and [latencies]. *)
Theorem schedule_keeps_configuration sched s :
  let a := engine s in
  let a' := engine (exec sched s) in
  url a' = url a /\ parsed_url a' = parsed_url a
  /\ base_url a' = base_url a /\ path a' = path a
  /\ workers a' = workers a /\ sockets a' = sockets a
  /\ method a' = method a /\ rate_limit a' = rate_limit a
  /\ dry_run a' = dry_run a /\ duration a' = duration a
  /\ user_agents a' = user_agents a /\ start_time a' = start_time a
  /\ running a' = running a /\ session a' = session a.
Proof.
  cbn zeta. destruct (exec_frame sched s) as (c & l & ->).
  repeat split.
Qed.

(** X8.  Along every schedule and from every state, neither counter ever
    decreases, the calls that returned earlier stay on record, and the two
    counters together grow by exactly the number of calls of [strike] that
    returned meanwhile. *)
Theorem counters_only_grow sched s :
  let s' := exec sched s in
  fst (counter (engine s)) <= fst (counter (engine s'))
  /\ snd (counter (engine s)) <= snd (counter (engine s'))
  /\ exists new,
       returned s' = new ++ returned s
       /\ fst (counter (engine s')) = fst (counter (engine s)) + tally true new
       /\ snd (counter (engine s')) = snd (counter (engine s)) + tally false new.
Proof.
  cbn zeta.
  assert (H : exists new,
             returned (exec sched s) = new ++ returned s
             /\ fst (counter (engine (exec sched s)))
                = fst (counter (engine s)) + tally true new
             /\ snd (counter (engine (exec sched s)))
                = snd (counter (engine s)) + tally false new).
  { apply (exec_invariant
             (fun s' => exists new,
                returned s' = new ++ returned s
                /\ fst (counter (engine s'))
                   = fst (counter (engine s)) + tally true new
                /\ snd (counter (engine s'))
                   = snd (counter (engine s)) + tally false new)).
    - intros s1 s2 He (new & Hr & Hs & Hf).
      destruct He as [E _ R _|q f E _ _ _ _ R|_ E _ _ R|_ E _ _ R|E _ _ R
                     |x b E _ _ R].
      + exists new. rewrite E, R. auto.
      + exists new. rewrite E, R. auto.
      + exists (true :: new). rewrite E, R, Hr, !tally_cons. cbn.
        split; [reflexivity|split; lia].
      + exists (false :: new). rewrite E, R, Hr, !tally_cons. cbn.
        split; [reflexivity|split; lia].
      + exists (false :: new). rewrite E, R, Hr, !tally_cons. cbn.
        split; [reflexivity|split; lia].
      + exists (b :: new). rewrite E, R, Hr, !tally_cons.
        destruct b; cbn; (split; [reflexivity|split; lia]).
    - exists []. cbn. unfold tally. cbn. split; [reflexivity|split; lia]. }
  destruct H as (new & Hr & Hs & Hf).
  assert (0 <= tally true new /\ 0 <= tally false new)
    by (unfold tally; lia).
  split; [lia|]. split; [lia|]. eauto.
Qed.

(** X9.  Along every schedule of a live engine: every success has its
    latency sample and every sample belongs to a counted attempt, so the
    successes counted are at most the samples recorded, which are at most
    the attempts counted; and every new sample or suspended call accounts
    for a request handed to the session. *)
Theorem live_accounting sched s :
  dry_run (engine s) = false ->
  let s' := exec sched s in
  let d_success := fst (counter (engine s')) - fst (counter (engine s)) in
  let d_failure := snd (counter (engine s')) - snd (counter (engine s)) in
  let d_samples := Z.of_nat (length (latencies (engine s')))
                   - Z.of_nat (length (latencies (engine s))) in
  let d_suspended := Z.of_nat (length (inflight s'))
                     - Z.of_nat (length (inflight s)) in
  let d_sent := Z.of_nat (length (wire s')) - Z.of_nat (length (wire s)) in
  d_success <= d_samples <= d_success + d_failure
  /\ 0 <= d_failure
  /\ d_samples + d_suspended <= d_sent.
Proof.
  intros Hdry. cbn zeta.
  assert (H : dry_run (engine (exec sched s)) = false
    /\ fst (counter (engine (exec sched s))) - fst (counter (engine s))
       <= Z.of_nat (length (latencies (engine (exec sched s))))
          - Z.of_nat (length (latencies (engine s)))
       <= fst (counter (engine (exec sched s))) - fst (counter (engine s))
          + (snd (counter (engine (exec sched s))) - snd (counter (engine s)))
    /\ 0 <= snd (counter (engine (exec sched s))) - snd (counter (engine s))
    /\ Z.of_nat (length (latencies (engine (exec sched s))))
       - Z.of_nat (length (latencies (engine s)))
       + (Z.of_nat (length (inflight (exec sched s)))
          - Z.of_nat (length (inflight s)))
       <= Z.of_nat (length (wire (exec sched s))) - Z.of_nat (length (wire s))).
  { apply (exec_invariant (fun s' =>
      dry_run (engine s') = false
      /\ fst (counter (engine s')) - fst (counter (engine s))
         <= Z.of_nat (length (latencies (engine s')))
            - Z.of_nat (length (latencies (engine s)))
         <= fst (counter (engine s')) - fst (counter (engine s))
            + (snd (counter (engine s')) - snd (counter (engine s)))
      /\ 0 <= snd (counter (engine s')) - snd (counter (engine s))
      /\ Z.of_nat (length (latencies (engine s')))
         - Z.of_nat (length (latencies (engine s)))
         + (Z.of_nat (length (inflight s')) - Z.of_nat (length (inflight s)))
         <= Z.of_nat (length (wire s')) - Z.of_nat (length (wire s)))).
    - intros s1 s2 He (Hd & Hlat & Hf & Hw).
      destruct He as [E W _ I|q f E _ _ W I _|D _ _ _ _|_ E W I _|E W I _
                     |x b E W I _].
      + rewrite E, W. repeat split; try tauto; lia.
      + rewrite E, W, I, !length_app. cbn [length].
        repeat split; try tauto; lia.
      + congruence.
      + rewrite E, W, I. cbn. repeat split; try tauto; lia.
      + rewrite E, W. cbn. repeat split; try tauto; lia.
      + rewrite E, W. destruct b; cbn; rewrite !length_app; cbn [length];
          (repeat split; try tauto; lia).
    - repeat split; try assumption; lia. }
  tauto.
Qed.

Lemma live_accounting_witness :
  dry_run (engine poster_sys) = false
  /\ fst (counter (engine (exec short_schedule poster_sys)))
     - fst (counter (engine poster_sys))
     <= Z.of_nat (length (latencies (engine (exec short_schedule poster_sys))))
        - Z.of_nat (length (latencies (engine poster_sys))).
Proof.
  split; [reflexivity|].
  apply (live_accounting short_schedule poster_sys eq_refl).
Defined.

(** X10.  In a dry run, whatever the schedule: nothing is handed to a
    session, no latency is recorded, no failure is counted, no call is ever
    suspended, and every value [strike] returns is [True], each counted as
    one success. *)
Theorem dry_run_schedule sched s :
  dry_run (engine s) = true ->
  inflight s = [] ->
  let s' := exec sched s in
  wire s' = wire s
  /\ latencies (engine s') = latencies (engine s)
  /\ snd (counter (engine s')) = snd (counter (engine s))
  /\ inflight s' = []
  /\ exists k : nat,
       returned s' = repeat true k ++ returned s
       /\ fst (counter (engine s')) = fst (counter (engine s)) + Z.of_nat k.
Proof.
  intros Hdry Hin. cbn zeta.
  assert (H : dry_run (engine (exec sched s)) = true
    /\ wire (exec sched s) = wire s
    /\ latencies (engine (exec sched s)) = latencies (engine s)
    /\ snd (counter (engine (exec sched s))) = snd (counter (engine s))
    /\ inflight (exec sched s) = []
    /\ exists k : nat,
         returned (exec sched s) = repeat true k ++ returned s
         /\ fst (counter (engine (exec sched s)))
            = fst (counter (engine s)) + Z.of_nat k).
  { apply (exec_invariant (fun s' =>
      dry_run (engine s') = true
      /\ wire s' = wire s
      /\ latencies (engine s') = latencies (engine s)
      /\ snd (counter (engine s')) = snd (counter (engine s))
      /\ inflight s' = []
      /\ exists k : nat,
           returned s' = repeat true k ++ returned s
           /\ fst (counter (engine s')) = fst (counter (engine s)) + Z.of_nat k)).
    - intros s1 s2 He (Hd & Hw & Hl & Hf & Hi & k & Hr & Hs).
      destruct He as [E W R I|q f E D _ _ _ _|_ E W I R|D _ _ _ _|_ _ I _
                     |x b _ _ I _].
      + rewrite E, W, R. rewrite Hi in I. cbn in I.
        destruct (inflight s2); [|cbn in I; lia]. eauto 10.
      + congruence.
      + rewrite E, W, I, R. cbn. repeat split; auto.
        exists (S k). rewrite Hr, Hs. cbn [repeat app]. split; [reflexivity|lia].
      + congruence.
      + rewrite Hi in I. discriminate.
      + rewrite Hi in I. discriminate.
    - repeat split; auto. exists 0%nat. split; [reflexivity|cbn; lia]. }
  tauto.
Qed.

Lemma dry_run_schedule_witness :
  dry_run (engine (boot rehearsal sevens)) = true
  /\ inflight (boot rehearsal sevens) = []
  /\ wire (exec short_schedule (boot rehearsal sevens)) = wire (boot rehearsal sevens)
  /\ snd (counter (engine (exec short_schedule (boot rehearsal sevens))))
     = snd (counter (engine (boot rehearsal sevens))).
Proof.
  split; [reflexivity|]. split; [reflexivity|].
  destruct (dry_run_schedule short_schedule (boot rehearsal sevens)
              eq_refl eq_refl) as (Hw & _ & Hf & _).
  split; [exact Hw|exact Hf].
Defined.

(** X11.  On a live engine without a session ([__aenter__] was not run),
    whatever the schedule: nothing is sent, no latency is recorded, no
    success is counted, no call is ever suspended, and every value [strike]
    returns is [False], each counted as one failure. *)
Theorem sessionless_schedule sched s :
  dry_run (engine s) = false ->
  session (engine s) = None ->
  inflight s = [] ->
  let s' := exec sched s in
  wire s' = wire s
  /\ latencies (engine s') = latencies (engine s)
  /\ fst (counter (engine s')) = fst (counter (engine s))
  /\ inflight s' = []
  /\ exists k : nat,
       returned s' = repeat false k ++ returned s
       /\ snd (counter (engine s')) = snd (counter (engine s)) + Z.of_nat k.
Proof.
  intros Hdry Hses Hin. cbn zeta.
  assert (H : (dry_run (engine (exec sched s)) = false
               /\ session (engine (exec sched s)) = None)
    /\ wire (exec sched s) = wire s
    /\ latencies (engine (exec sched s)) = latencies (engine s)
    /\ fst (counter (engine (exec sched s))) = fst (counter (engine s))
    /\ inflight (exec sched s) = []
    /\ exists k : nat,
         returned (exec sched s) = repeat false k ++ returned s
         /\ snd (counter (engine (exec sched s)))
            = snd (counter (engine s)) + Z.of_nat k).
  { apply (exec_invariant (fun s' =>
      (dry_run (engine s') = false /\ session (engine s') = None)
      /\ wire s' = wire s
      /\ latencies (engine s') = latencies (engine s)
      /\ fst (counter (engine s')) = fst (counter (engine s))
      /\ inflight s' = []
      /\ exists k : nat,
           returned s' = repeat false k ++ returned s
           /\ snd (counter (engine s')) = snd (counter (engine s)) + Z.of_nat k)).
    - intros s1 s2 He ((Hd & Hn) & Hw & Hl & Hf & Hi & k & Hr & Hs).
      destruct He as [E W R I|q f _ _ N _ _ _|D _ _ _ _|_ E W I R|_ _ I _
                     |x b _ _ I _].
      + rewrite E, W, R. rewrite Hi in I. cbn in I.
        destruct (inflight s2); [|cbn in I; lia]. eauto 10.
      + contradiction.
      + congruence.
      + rewrite E, W, I, R. cbn. repeat split; auto.
        exists (S k). rewrite Hr, Hs. cbn [repeat app]. split; [reflexivity|lia].
      + rewrite Hi in I. discriminate.
      + rewrite Hi in I. discriminate.
    - repeat split; auto. exists 0%nat. split; [reflexivity|cbn; lia]. }
  tauto.
Qed.

Lemma sessionless_schedule_witness :
  dry_run (engine (boot unentered sevens)) = false
  /\ session (engine (boot unentered sevens)) = None
  /\ inflight (boot unentered sevens) = []
  /\ wire (exec short_schedule (boot unentered sevens)) = wire (boot unentered sevens)
  /\ fst (counter (engine (exec short_schedule (boot unentered sevens))))
     = fst (counter (engine (boot unentered sevens))).
Proof.
  split; [reflexivity|]. split; [reflexivity|]. split; [reflexivity|].
  destruct (sessionless_schedule short_schedule (boot unentered sevens)
              eq_refl eq_refl eq_refl) as (Hw & _ & Hs & _).
  split; [exact Hw|exact Hs].
Defined.

(** ** The whole program *)


(** ** One batch of a lone worker *)

Lemma generate_phase (g : nat -> Q) ks : forall s,
  1 <= workers (engine s) ->
  user_agents (engine s) <> [] ->
  let s' := exec (map (fun k => EvGenerate (g k)) ks) s in
  engine s' = engine s /\ wire s' = wire s /\ inflight s' = inflight s
  /\ returned s' = returned s
  /\ exists ds, created s' = created s ++ ds /\ length ds = length ks.
Proof.
  induction ks as [|k ks IH]; intros s Hw Hua; cbn zeta.
  - cbn. repeat split. exists []. by rewrite app_nil_r.
  - cbn [map exec step].
    destruct (generate_request_returns (engine s) (g k) (random s) Hw Hua)
      as (d & r' & Hg).
    rewrite Hg.
    destruct (IH (set_created (created s ++ [d]) (set_random r' s)) Hw Hua)
      as (He & Hwi & Hi & Hr & ds & Hc & Hl).
    cbn [engine wire inflight returned created set_created set_random] in *.
    repeat split; auto.
    exists (d :: ds). rewrite Hc, <- app_assoc. cbn. auto.
Qed.

Lemma start_phase (st : nat -> Q) ks : forall s,
  dry_run (engine s) = false ->
  session (engine s) <> None ->
  supported (engine s) ->
  length (created s) = length ks ->
  let s' := exec (map (fun k => EvStart 0 (st k)) ks) s in
  engine s' = engine s /\ created s' = [] /\ returned s' = returned s
  /\ length (wire s') = (length (wire s) + length ks)%nat
  /\ length (inflight s') = (length (inflight s) + length ks)%nat.
Proof.
  induction ks as [|k ks IH]; intros s Hdry Hses Hsup Hlen; cbn zeta.
  - cbn in *. destruct (created s); [|discriminate]. repeat split; lia.
  - destruct (created s) as [|d rest] eqn:Ec; [discriminate|].
    cbn [map exec step]. rewrite Ec. cbn [lookup list_lookup delete list_delete].
    destruct (session (engine s)) as [c|] eqn:Es; [|contradiction].
    destruct (resolve_method_returns (engine s) (random s)) as (m & r & Hm).
    pose proof (resolve_method_supported _ _ _ _ Hsup Hm) as Hv.
    destruct (strike_begin_dispatches d (st k) (set_created rest s) m r c
                Hdry Es Hm Hv) as (f & s1 & Hbeg & _).
    rewrite Hbeg.
    destruct (strike_begin_await _ _ _ _ _ Hbeg)
      as (_ & He & Hw & _ & Hcr & Hin & Hret).
    cbn [engine wire inflight returned created set_created] in *.
    destruct (IH (set_inflight (inflight s1 ++ [f]) s1)) as (He' & Hc' & Hr' & Hw' & Hi').
    + cbn. rewrite He. exact Hdry.
    + cbn. rewrite He, Es. discriminate.
    + cbn. rewrite He. exact Hsup.
    + cbn. rewrite Hcr. cbn in Hlen. lia.
    + cbn [engine wire inflight returned created set_inflight] in *.
      rewrite He', Hc', Hr', Hw', Hi', He, Hw, Hin, Hret, !length_app.
      cbn [length]. repeat split; lia.
Qed.

Lemma replies_cons p c cs :
  replies p (c :: cs) = (if p (snd (fst c)) then 1 else 0) + replies p cs.
Proof.
  unfold replies. cbn [map]. rewrite tally_cons.
  destruct (p (snd (fst c))); cbn [Bool.eqb]; lia.
Qed.

Lemma completes_length cs : forall n, completes n cs = true -> length cs = n.
Proof.
  induction cs as [|[[i reply] t1] cs IH]; intros [|n] H; cbn in H;
    try discriminate; [reflexivity|].
  apply andb_true_iff in H as [_ H]. cbn [length]. f_equal. apply IH, H.
Qed.

Lemma reply_phase cs : forall s,
  completes (length (inflight s)) cs = true ->
  let s' := exec (map (fun c => EvReply (fst (fst c)) (snd (fst c)) (snd c))
                      cs) s in
  inflight s' = [] /\ created s' = created s /\ wire s' = wire s
  /\ fst (counter (engine s'))
     = fst (counter (engine s)) + replies good cs
  /\ snd (counter (engine s'))
     = snd (counter (engine s)) + (Z.of_nat (length cs) - replies good cs)
  /\ Z.of_nat (length (latencies (engine s')))
     = Z.of_nat (length (latencies (engine s))) + replies is_response cs
  /\ length (returned s') = (length (returned s) + length cs)%nat.
Proof.
  induction cs as [|[[i reply] t1] cs IH]; intros s H; cbn zeta.
  - destruct (inflight s) eqn:Ei; [|discriminate].
    cbn. unfold replies, tally. cbn. rewrite Ei. repeat split; lia.
  - destruct (length (inflight s)) as [|n] eqn:El; [discriminate|].
    cbn [completes] in H.
    apply andb_true_iff in H as [H Hcs]. apply andb_true_iff in H as [Hi Hcaught].
    apply Nat.ltb_lt in Hi. rewrite <- El in Hi.
    destruct (lookup_lt_is_Some_2 _ _ Hi) as [f Hf].
    cbn [map exec step fst snd]. rewrite Hf.
    destruct (strike_resume f reply t1 (set_inflight (delete i (inflight s)) s))
      as [res s1] eqn:Hr.
    destruct (strike_resume_spec _ _ _ _ _ _ Hr)
      as (Hw & Hcr & Hin & Hret & Hrep).
    cbn [engine wire inflight returned created set_inflight] in *.
    assert (Hlen : length (inflight s1) = n).
    { rewrite Hin, length_delete by eauto. lia. }
    assert (Hres : res = Returned (good reply)
                   /\ counter (engine s1) = bump (good reply) (counter (engine s))
                   /\ Z.of_nat (length (latencies (engine s1)))
                      = Z.of_nat (length (latencies (engine s)))
                        + (if is_response reply then 1 else 0)).
    { destruct reply as [status|e]; cbn [caught good is_response] in *.
      - destruct Hrep as (-> & Hl & Hc). rewrite Hl, length_app. cbn [length].
        repeat split; [exact Hc|lia].
      - destruct Hrep as (Hl & Hc). rewrite Hcaught in Hc.
        destruct Hc as [-> Hc]. rewrite Hl. repeat split; [exact Hc|lia]. }
    destruct Hres as (-> & Hc & Hl).
    destruct (IH (record (Returned (good reply)) s1)) as
      (Hi' & Hc' & Hw' & Hs' & Hf' & Hl' & Hr').
    { cbn. rewrite Hlen. exact Hcs. }
    cbn [record engine wire inflight returned created set_returned] in *.
    rewrite Hi', Hc', Hw', Hs', Hf', Hl', Hr', Hc, Hl, Hw, Hcr, Hret.
    rewrite !replies_cons. cbn [fst snd length].
    destruct (good reply), (is_response reply); cbn [bump fst snd];
      repeat split; lia.
Qed.

(** X14.  One batch of a lone worker on a live engine with a session and a
    supported method, every call of which is resumed by a response or by an
    exception it catches: [max(0, sockets)] requests are handed to the
    session and as many calls of [strike] return; the successes grow by the
    number of replies with a status in [200, 400), the failures by the
    number of other replies, the latency samples by the number of
    responses; and no coroutine is left created or suspended. *)
Theorem worker_batch_accounting g st cs s :
  dry_run (engine s) = false ->
  session (engine s) <> None ->
  supported (engine s) ->
  1 <= workers (engine s) ->
  user_agents (engine s) <> [] ->
  created s = [] ->
  inflight s = [] ->
  completes (Z.to_nat (sockets (engine s))) cs = true ->
  let n := Z.max 0 (sockets (engine s)) in
  let s' := exec (worker_batch (engine s) g st cs) s in
  created s' = [] /\ inflight s' = []
  /\ Z.of_nat (length (wire s')) = Z.of_nat (length (wire s)) + n
  /\ Z.of_nat (length (returned s')) = Z.of_nat (length (returned s)) + n
  /\ fst (counter (engine s'))
     = fst (counter (engine s)) + replies good cs
  /\ snd (counter (engine s'))
     = snd (counter (engine s)) + (n - replies good cs)
  /\ Z.of_nat (length (latencies (engine s')))
     = Z.of_nat (length (latencies (engine s))) + replies is_response cs.
Proof.
  intros Hdry Hses Hsup Hw Hua Hcr Hin Hcs. cbn zeta.
  unfold worker_batch. cbn zeta. rewrite !exec_app.
  set (n := Z.to_nat (sockets (engine s))) in *.
  destruct (generate_phase g (seq 0 n) s Hw Hua)
    as (He1 & Hw1 & Hi1 & Hr1 & ds & Hc1 & Hl1).
  set (s1 := exec (map (fun k => EvGenerate (g k)) (seq 0 n)) s) in *.
  rewrite length_seq in Hl1. rewrite Hcr in Hc1. cbn [app] in Hc1.
  destruct (start_phase st (seq 0 n) s1) as (He2 & Hc2 & Hr2 & Hw2 & Hi2).
  { rewrite He1. exact Hdry. }
  { rewrite He1. exact Hses. }
  { rewrite He1. exact Hsup. }
  { rewrite Hc1, Hl1, length_seq. reflexivity. }
  set (s2 := exec (map (fun k => EvStart 0 (st k)) (seq 0 n)) s1) in *.
  rewrite length_seq in Hw2, Hi2. rewrite Hi1, Hin in Hi2. cbn in Hi2.
  destruct (reply_phase cs s2) as (Hi3 & Hc3 & Hw3 & Hs3 & Hf3 & Hl3 & Hr3).
  { rewrite Hi2. exact Hcs. }
  pose proof (completes_length _ _ Hcs) as Hlen.
  rewrite Hi3, Hc3, Hc2, Hw3, Hw2, Hw1, Hs3, Hf3, Hl3, Hr3, Hr2, Hr1, He2, He1,
    Hlen.
  repeat split; lia.
Qed.

Lemma worker_batch_accounting_witness :
  completes (Z.to_nat (sockets (engine poster_sys))) batch_replies = true
  /\ counter (engine (exec (worker_batch (engine poster_sys) (fun _ => 6%Q)
                              (fun _ => 7%Q) batch_replies) poster_sys))
     = (1, 1)
  /\ fst (counter (engine (exec (worker_batch (engine poster_sys) (fun _ => 6%Q)
                                   (fun _ => 7%Q) batch_replies) poster_sys)))
     = fst (counter (engine poster_sys)) + replies good batch_replies.
Proof.
  split; [reflexivity|]. split; [vm_compute; reflexivity|].
  destruct (worker_batch_accounting (fun _ => 6%Q) (fun _ => 7%Q) batch_replies
              poster_sys eq_refl ltac:(discriminate)
              ltac:(right; right; reflexivity) ltac:(cbn; lia)
              ltac:(discriminate) eq_refl eq_refl eq_refl)
    as (_ & _ & _ & _ & Hs & _).
  exact Hs.
Defined.

(** X15.  Whatever the schedule, the latency samples and the requests
    handed to the session are only added to, at the end: what was recorded
    or sent before stays in place and in order. *)
Theorem history_is_append_only sched s :
  exists added sent,
    latencies (engine (exec sched s)) = latencies (engine s) ++ added
    /\ wire (exec sched s) = wire s ++ sent.
Proof.
  apply (exec_invariant (fun s' =>
    exists added sent,
      latencies (engine s') = latencies (engine s) ++ added
      /\ wire s' = wire s ++ sent)).
  - intros s1 s2 He (added & sent & Hl & Hw).
    destruct He as [E W _ _|q f E _ _ W _ _|_ E W _ _|_ E W _ _|E W _ _
                   |x b E W _ _]; rewrite E, W.
    + eauto.
    + exists added, (sent ++ [q]). rewrite Hl, Hw, app_assoc. auto.
    + exists added, sent. cbn. auto.
    + exists added, sent. cbn. auto.
    + exists added, sent. cbn. auto.
    + exists (added ++ [x]), sent.
      destruct b; cbn; rewrite Hl, Hw, app_assoc; auto.
  - exists [], []. by rewrite !app_nil_r.
Qed.
